(** * youtube_downloader.py: a shallow embedding and its verified properties

    The program is an interactive front end of the yt_dlp extraction
    library.  Its own code is a handful of pure helpers ([validate_url],
    [is_playlist], [get_playlist_config], [get_format_string]), the prompt
    sequence [get_user_input], and the orchestrator [download_videos], which
    talks to the file system, the terminal and the library.

    Conventions of the embedding:
    - Python [str] values are Rocq [string]s.  [isdigit], [lower] and [int]
      are modelled on ASCII text, where they are the digits 0 to 9, the
      letters A to Z and the literals of ASCII digits; [int] reads a
      literal of any length, where CPython stops at 4300 digits.  A
      statement about text a user enters that depends on either says so
      ([ascii_entries], [plain_text], [plain_entries]).
    - Python [int] is [Z].
    - a dict with string keys is a [gmap string pyval];
    - a call that may raise is a [py_result]; code with side effects runs in
      the monad [M] over a trace of observable events. *)

From Stdlib Require Import ZArith String Ascii List Lia Bool.
From Stdlib Require Import DecimalString DecimalN DecimalZ DecimalPos.
From stdpp Require Import gmap strings.

Open Scope string_scope.
Open Scope Z_scope.

(** ** Python strings *)

Module PyStr.

(** [s.startswith(p)] *)
Fixpoint startswith (p s : string) : bool :=
  match p, s with
  | EmptyString, _ => true
  | String _ _, EmptyString => false
  | String a p', String b s' => Ascii.eqb a b && startswith p' s'
  end.

(** [needle in hay]: some suffix of [hay] starts with [needle]. *)
Fixpoint contains (needle hay : string) : bool :=
  startswith needle hay
  || match hay with
     | EmptyString => false
     | String _ rest => contains needle rest
     end.

(** [c in s] for a one-character needle. *)
Fixpoint has_char (c : ascii) (s : string) : bool :=
  match s with
  | EmptyString => false
  | String d rest => Ascii.eqb c d || has_char c rest
  end.

(** [s.replace(c, new)] for a one-character [c]. *)
Fixpoint replace_char (c : ascii) (new : string) (s : string) : string :=
  match s with
  | EmptyString => EmptyString
  | String d rest =>
      if Ascii.eqb c d then new +:+ replace_char c new rest
      else String d (replace_char c new rest)
  end.

(** [s.split(c)] for a one-character separator: never the empty list. *)
Fixpoint split (c : ascii) (s : string) : list string :=
  match s with
  | EmptyString => [EmptyString]
  | String d rest =>
      if Ascii.eqb c d then EmptyString :: split c rest
      else match split c rest with
           | [] => [String d EmptyString]
           | w :: ws => String d w :: ws
           end
  end.

(** [s[:-1]]: all but the last character (the empty string stays empty). *)
Fixpoint drop_last (s : string) : string :=
  match s with
  | EmptyString => EmptyString
  | String c rest =>
      match rest with
      | EmptyString => EmptyString
      | String _ _ => String c (drop_last rest)
      end
  end.

Definition is_upper (c : ascii) : bool :=
  let n := nat_of_ascii c in (65 <=? n)%nat && (n <=? 90)%nat.

Definition lower_char (c : ascii) : ascii :=
  if is_upper c then ascii_of_nat (nat_of_ascii c + 32) else c.

(** [s.lower()] *)
Fixpoint lower (s : string) : string :=
  match s with
  | EmptyString => EmptyString
  | String c rest => String (lower_char c) (lower rest)
  end.

Definition is_digit (c : ascii) : bool :=
  let n := nat_of_ascii c in (48 <=? n)%nat && (n <=? 57)%nat.

Definition digit_val (c : ascii) : Z := Z.of_nat (nat_of_ascii c) - 48.

Fixpoint all_digits (s : string) : bool :=
  match s with
  | EmptyString => true
  | String c rest => is_digit c && all_digits rest
  end.

(** [s.isdigit()] on ASCII text: at least one character, and all of them
    among the digits 0 to 9. *)
Definition isdigit (s : string) : bool :=
  match s with
  | EmptyString => false
  | String _ _ => all_digits s
  end.

Fixpoint is_ascii (s : string) : bool :=
  match s with
  | EmptyString => true
  | String c rest => (nat_of_ascii c <? 128)%nat && is_ascii rest
  end.

(** White space as [int()] skips it around an ASCII literal: TAB, LF, VT,
    FF, CR and the blank. *)
Definition is_space (c : ascii) : bool :=
  let n := nat_of_ascii c in
  ((9 <=? n)%nat && (n <=? 13)%nat) || (n =? 32)%nat.

Fixpoint lstrip (s : string) : string :=
  match s with
  | EmptyString => EmptyString
  | String c rest => if is_space c then lstrip rest else s
  end.

Fixpoint rstrip (s : string) : string :=
  match s with
  | EmptyString => EmptyString
  | String c rest =>
      match rstrip rest with
      | EmptyString => if is_space c then EmptyString else String c EmptyString
      | r => String c r
      end
  end.

Definition strip (s : string) : string := rstrip (lstrip s).

(** The digits of a decimal literal after its first digit: single
    underscores may separate digits, none may end the literal. *)
Fixpoint int_digits (s : string) (after_underscore : bool) (acc : Z)
  : option Z :=
  match s with
  | EmptyString => if after_underscore then None else Some acc
  | String c rest =>
      if is_digit c then int_digits rest false (10 * acc + digit_val c)
      else if Ascii.eqb c "_" then
        if after_underscore then None else int_digits rest true acc
      else None
  end.

Definition int_unsigned (s : string) : option Z :=
  match s with
  | EmptyString => None
  | String c rest =>
      if is_digit c then int_digits rest false (digit_val c) else None
  end.

(** [int(s)] in base ten; [None] stands for [ValueError].  A literal of any
    length is read: the limit CPython puts on the digits of a literal
    (4300 by default) is not modelled, and statements that read entered
    text with [int] are scoped to [plain_text]. *)
Definition int_of_str (s : string) : option Z :=
  match strip s with
  | String "+" rest => int_unsigned rest
  | String "-" rest => Z.opp <$> int_unsigned rest
  | body => int_unsigned body
  end.

(** [str(z)] for an integer, which is also how an f-string renders it. *)
Definition str_of_int (z : Z) : string := NilZero.string_of_int (Z.to_int z).

End PyStr.

(** ** Values, exceptions, results *)

(** The values the program stores in its dicts and passes around. *)
Inductive pyval : Type :=
  | PyNone
  | PyStr (s : string).

Definition pyval_eqb (a b : pyval) : bool :=
  match a, b with
  | PyNone, PyNone => true
  | PyStr s, PyStr t => String.eqb s t
  | _, _ => false
  end.

(** Truthiness: [None] and the empty string are false. *)
Definition truthy (v : pyval) : bool :=
  match v with
  | PyNone => false
  | PyStr EmptyString => false
  | PyStr (String _ _) => true
  end.

(** How an f-string renders a value. *)
Definition format_val (v : pyval) : string :=
  match v with
  | PyNone => "None"
  | PyStr s => s
  end.

(** Exception classes that occur.  [DownloadError] stands for the errors of
    the extraction library, which all derive from [Exception];
    [KeyboardInterrupt] and [SystemExit] derive from [BaseException] only. *)
Inductive exn : Type :=
  | KeyError (key : string)
  | TypeError
  | AttributeError
  | ValueError
  | OSError
  | EOFError
  | DownloadError (msg : string)
  | KeyboardInterrupt
  | SystemExit.

(** [isinstance(e, Exception)] *)
Definition is_Exception (e : exn) : bool :=
  match e with
  | KeyboardInterrupt | SystemExit => false
  | _ => true
  end.

Inductive py_result (A : Type) : Type :=
  | Returns (a : A)
  | Raises (e : exn).
Arguments Returns {A} a.
Arguments Raises {A} e.

Definition bind_result {A B} (r : py_result A) (k : A -> py_result B)
  : py_result B :=
  match r with
  | Returns a => k a
  | Raises e => Raises e
  end.

(** [try: body except: handler] with a bare [except], which catches every
    exception, [BaseException]s included. *)
Definition try_except_all {A} (body : py_result A) (handler : py_result A)
  : py_result A :=
  match body with
  | Returns a => Returns a
  | Raises _ => handler
  end.

(** [int(v)] *)
Definition py_int (v : pyval) : py_result Z :=
  match v with
  | PyNone => Raises TypeError
  | PyStr s =>
      match PyStr.int_of_str s with
      | Some z => Returns z
      | None => Raises ValueError
      end
  end.

(** ** validate_url and is_playlist *)

(** The fields of [urllib.parse.ParseResult] the program reads. *)
Record ParseResult : Type := { scheme : string; netloc : string }.

Section ValidateUrl.

(** [urllib.parse.urlparse] belongs to the Python standard library; the
    program only depends on its outcome: a parse result, or an exception. *)
Variable urlparse : string -> py_result ParseResult.

Definition validate_url (url : string) : py_result bool :=
  try_except_all
    (bind_result (urlparse url) (fun parsed =>
       Returns (PyStr.contains "youtube.com" (netloc parsed)
                || PyStr.contains "youtu.be" (netloc parsed))))
    (Returns false).

End ValidateUrl.

Definition is_playlist (url : string) : bool :=
  PyStr.contains "playlist" url || PyStr.contains "&list=" url.

(** ** A model of [urllib.parse.urlparse]

    Only what decides the [netloc] of an ASCII URL is modelled, after
    CPython's [urlsplit]: leading control characters and blanks are dropped,
    TAB, LF and CR are removed, a leading [scheme:] is cut off, and when the
    remainder starts with [//] the netloc runs up to the next [/], [?] or
    [#].  Unbalanced square brackets raise [ValueError]; so does a bracketed
    host that [check_bracketed_host] (the address validation of the
    [ipaddress] module, not modelled) refuses.  What CPython checks
    besides is left out: text before an opening or after a closing
    bracket, and the NFKC form of a netloc that is not ASCII.  The model
    is that of [urlparse] on ASCII URLs without square brackets, and of
    its refusal of unbalanced ones. *)

Module Urllib.

Definition is_c0_or_space (c : ascii) : bool := (nat_of_ascii c <=? 32)%nat.

Fixpoint lstrip_c0 (s : string) : string :=
  match s with
  | EmptyString => EmptyString
  | String c rest => if is_c0_or_space c then lstrip_c0 rest else s
  end.

Definition remove_unsafe (s : string) : string :=
  PyStr.replace_char "010" ""
    (PyStr.replace_char "013" "" (PyStr.replace_char "009" "" s)).

Definition is_alpha (c : ascii) : bool :=
  let n := nat_of_ascii c in
  ((65 <=? n)%nat && (n <=? 90)%nat) || ((97 <=? n)%nat && (n <=? 122)%nat).

Definition is_scheme_char (c : ascii) : bool :=
  is_alpha c || PyStr.is_digit c
  || Ascii.eqb c "+" || Ascii.eqb c "-" || Ascii.eqb c ".".

Fixpoint all_scheme_chars (s : string) : bool :=
  match s with
  | EmptyString => true
  | String c rest => is_scheme_char c && all_scheme_chars rest
  end.

(** [s.partition(c)] when [c] occurs: the text before and after the first
    occurrence. *)
Fixpoint cut_at (c : ascii) (s : string) : option (string * string) :=
  match s with
  | EmptyString => None
  | String d rest =>
      if Ascii.eqb c d then Some (EmptyString, rest)
      else match cut_at c rest with
           | Some (before, after) => Some (String d before, after)
           | None => None
           end
  end.

(** The scheme, lowered, and the text after its colon; no scheme when the
    text before the first colon is not a scheme name. *)
Definition split_scheme (url : string) : string * string :=
  match url with
  | String c _ =>
      if is_alpha c then
        match cut_at ":" url with
        | Some (before, after) =>
            if all_scheme_chars before then (PyStr.lower before, after)
            else (EmptyString, url)
        | None => (EmptyString, url)
        end
      else (EmptyString, url)
  | EmptyString => (EmptyString, url)
  end.

Definition is_netloc_delim (c : ascii) : bool :=
  Ascii.eqb c "/" || Ascii.eqb c "?" || Ascii.eqb c "#".

Fixpoint take_netloc (s : string) : string :=
  match s with
  | EmptyString => EmptyString
  | String c rest =>
      if is_netloc_delim c then EmptyString else String c (take_netloc rest)
  end.

Definition bracketed_host (loc : string) : string :=
  match cut_at "[" loc with
  | Some (_, after) =>
      match cut_at "]" after with
      | Some (host, _) => host
      | None => after
      end
  | None => EmptyString
  end.

Section Urlparse.

Variable check_bracketed_host : string -> bool.

Definition split_netloc (rest : string) : py_result string :=
  match rest with
  | String "/" (String "/" after) =>
      let loc := take_netloc after in
      let opening := PyStr.has_char "[" loc in
      let closing := PyStr.has_char "]" loc in
      if (opening && negb closing) || (closing && negb opening)
      then Raises ValueError
      else if opening && closing
           && negb (check_bracketed_host (bracketed_host loc))
      then Raises ValueError
      else Returns loc
  | _ => Returns EmptyString
  end.

Definition urlparse (url : string) : py_result ParseResult :=
  let '(sch, rest) := split_scheme (remove_unsafe (lstrip_c0 url)) in
  bind_result (split_netloc rest) (fun loc =>
    Returns {| scheme := sch; netloc := loc |}).

End Urlparse.

End Urllib.

(** ** The preference collector *)

(** The answers dict of one session, keyed by question name. *)
Abbreviation Preferences := (gmap string pyval).

(** [d.get(k)] *)
Definition dict_get (d : Preferences) (k : string) : pyval :=
  default PyNone (d !! k).

(** [d[k]] *)
Definition dict_getitem (d : Preferences) (k : string) : py_result pyval :=
  match d !! k with
  | Some v => Returns v
  | None => Raises (KeyError k)
  end.

(** What the user does at a prompt: submit a line of text, or pick the entry
    at some position of a list. *)
Inductive user_action : Type :=
  | Typed (text : string)
  | Picked (index : nat).

Module Inquirer.

(** The prompt library is external; its prompt loop is modelled as its
    documentation describes it.  An ignored question is answered by its
    default; a text question is asked again until the entry validates; a
    list question yields one of its choices. *)

Inductive kind : Type :=
  | Text
  | List (choices : list string).

Record question : Type := {
  q_kind : kind;
  q_name : string;
  q_default : pyval;
  q_validate : Preferences -> string -> bool;
  q_ignore : Preferences -> bool
}.

Fixpoint ask_text (valid : string -> bool) (script : list user_action)
  : option (string * list user_action) :=
  match script with
  | Typed s :: rest => if valid s then Some (s, rest) else ask_text valid rest
  | _ => None
  end.

Definition ask_list (choices : list string) (script : list user_action)
  : option (string * list user_action) :=
  match script with
  | Picked i :: rest =>
      match choices !! i with
      | Some c => Some (c, rest)
      | None => None
      end
  | _ => None
  end.

Definition render (q : question) (answers : Preferences)
    (script : list user_action) : option (pyval * list user_action) :=
  if q_ignore q answers then Some (q_default q, script)
  else
    match q_kind q with
    | Text =>
        match ask_text (q_validate q answers) script with
        | Some (s, rest) => Some (PyStr s, rest)
        | None => None
        end
    | List choices =>
        match ask_list choices script with
        | Some (c, rest) => Some (PyStr c, rest)
        | None => None
        end
    end.

(** [inquirer.prompt(questions)]; [None] when the script ends before the
    last question is answered, or does something the question at hand
    does not offer. *)
Fixpoint prompt (questions : list question) (answers : Preferences)
    (script : list user_action) : option (Preferences * list user_action) :=
  match questions with
  | [] => Some (answers, script)
  | q :: qs =>
      match render q answers script with
      | Some (v, rest) => prompt qs (<[q_name q := v]> answers) rest
      | None => None
      end
  end.

End Inquirer.

Section Collector.

Variable urlparse : string -> py_result ParseResult.

(** [lambda _, x: validate_url(x)]; an exception inside a validator counts
    as a failed validation. *)
Definition url_validator (_ : Preferences) (x : string) : bool :=
  match validate_url urlparse x with
  | Returns b => b
  | Raises _ => false
  end.

(** [lambda _, x: x.isdigit()] *)
Definition digit_validator (_ : Preferences) (x : string) : bool :=
  PyStr.isdigit x.

Definition no_validator (_ : Preferences) (_ : string) : bool := true.

Definition never_ignored (_ : Preferences) : bool := false.

(** [lambda x: x['playlist_options'] not in [option]]; the key is always
    there when this runs, its question comes first. *)
Definition unless_playlist_option (option : string) (x : Preferences)
  : bool :=
  negb (pyval_eqb (dict_get x "playlist_options") (PyStr option)).

(** [lambda x: x['download_type'] == choice] *)
Definition when_download_type (choice : string) (x : Preferences) : bool :=
  pyval_eqb (dict_get x "download_type") (PyStr choice).

Definition base_questions : list Inquirer.question :=
  [ {| Inquirer.q_kind := Inquirer.Text; Inquirer.q_name := "url";
       Inquirer.q_default := PyNone;
       Inquirer.q_validate := url_validator;
       Inquirer.q_ignore := never_ignored |};
    {| Inquirer.q_kind := Inquirer.Text; Inquirer.q_name := "output_path";
       Inquirer.q_default := PyStr "downloads";
       Inquirer.q_validate := no_validator;
       Inquirer.q_ignore := never_ignored |} ].

Definition playlist_questions : list Inquirer.question :=
  [ {| Inquirer.q_kind :=
         Inquirer.List ["Full playlist"; "Select range"; "Specific videos"];
       Inquirer.q_name := "playlist_options";
       Inquirer.q_default := PyNone;
       Inquirer.q_validate := no_validator;
       Inquirer.q_ignore := never_ignored |};
    {| Inquirer.q_kind := Inquirer.Text; Inquirer.q_name := "start_index";
       Inquirer.q_default := PyNone;
       Inquirer.q_validate := digit_validator;
       Inquirer.q_ignore := unless_playlist_option "Select range" |};
    {| Inquirer.q_kind := Inquirer.Text; Inquirer.q_name := "end_index";
       Inquirer.q_default := PyNone;
       Inquirer.q_validate := digit_validator;
       Inquirer.q_ignore := unless_playlist_option "Select range" |};
    {| Inquirer.q_kind := Inquirer.Text; Inquirer.q_name := "video_indices";
       Inquirer.q_default := PyNone;
       Inquirer.q_validate := no_validator;
       Inquirer.q_ignore := unless_playlist_option "Specific videos" |} ].

(** The quality tiers on offer. *)
Definition quality_tiers : list string :=
  ["best"; "1080p"; "720p"; "480p"; "360p"].

Definition media_questions : list Inquirer.question :=
  [ {| Inquirer.q_kind := Inquirer.List ["Video with Audio"; "Audio Only"];
       Inquirer.q_name := "download_type";
       Inquirer.q_default := PyNone;
       Inquirer.q_validate := no_validator;
       Inquirer.q_ignore := never_ignored |};
    {| Inquirer.q_kind := Inquirer.List quality_tiers;
       Inquirer.q_name := "quality";
       Inquirer.q_default := PyNone;
       Inquirer.q_validate := no_validator;
       Inquirer.q_ignore := when_download_type "Audio Only" |};
    {| Inquirer.q_kind := Inquirer.List ["mp3"; "wav"; "m4a"];
       Inquirer.q_name := "audio_format";
       Inquirer.q_default := PyNone;
       Inquirer.q_validate := no_validator;
       Inquirer.q_ignore := when_download_type "Video with Audio" |} ].

Definition questions (is_playlist_url : bool) : list Inquirer.question :=
  base_questions
  ++ (if is_playlist_url then playlist_questions else [])
  ++ media_questions.

Definition get_user_input (is_playlist_url : bool)
    (script : list user_action) : option (Preferences * list user_action) :=
  Inquirer.prompt (questions is_playlist_url) ∅ script.

End Collector.

(** ** The selection resolver and the format builder *)

Definition get_playlist_config (preferences : Preferences) : py_result pyval :=
  if pyval_eqb (dict_get preferences "playlist_options") (PyStr "Select range")
  then
    bind_result (dict_getitem preferences "start_index") (fun s =>
    bind_result (py_int s) (fun start =>
    bind_result (dict_getitem preferences "end_index") (fun e =>
    bind_result (py_int e) (fun end_ =>
    Returns (PyStr (PyStr.str_of_int start +:+ "-"
                    +:+ PyStr.str_of_int end_))))))
  else if pyval_eqb (dict_get preferences "playlist_options")
                    (PyStr "Specific videos")
  then
    bind_result (dict_getitem preferences "video_indices") (fun v =>
      match v with
      | PyStr text => Returns (PyStr (PyStr.replace_char " " "" text))
      | PyNone => Raises AttributeError
      end)
  else Returns PyNone.

Definition get_format_string (quality : string) : string :=
  if String.eqb quality "best" then "bestvideo*+bestaudio/best"
  else
    let height := PyStr.drop_last quality in
    "bestvideo[height<=" +:+ height +:+ "]+bestaudio/best[height<="
      +:+ height +:+ "]".

(** ** The download orchestrator *)

(** A dict entry of the probe result: missing, [None], or a value. *)
Inductive field (A : Type) : Type :=
  | Absent
  | IsNone
  | Has (a : A).
Arguments Absent {A}.
Arguments IsNone {A}.
Arguments Has {A} a.

(** The entries of the probe result that the summary reads; [entries] is
    kept as the number of its items. *)
Record info_dict : Type := {
  info_title : field string;
  info_entries : field nat;
  info_duration : field Z
}.

Record postprocessor : Type := {
  key : string;
  preferredcodec : pyval;
  preferredquality : string
}.

(** The one progress hook: it logs the percentage and byte count the library
    reports while it downloads. *)
Inductive progress_hook : Type := LogProgress.

(** The configuration dict handed to the library. *)
Record ydl_opts : Type := {
  format : string;
  outtmpl : string;
  progress_hooks : list progress_hook;
  ignoreerrors : bool;
  no_warnings : bool;
  quiet : bool;
  postprocessors : list postprocessor;
  playliststart : option Z;
  playlistend : option Z;
  playlist_items : option string
}.

Definition set_playlist_range (start end_ : Z) (o : ydl_opts) : ydl_opts :=
  {| format := format o; outtmpl := outtmpl o;
     progress_hooks := progress_hooks o; ignoreerrors := ignoreerrors o;
     no_warnings := no_warnings o; quiet := quiet o;
     postprocessors := postprocessors o;
     playliststart := Some start; playlistend := Some end_;
     playlist_items := playlist_items o |}.

Definition set_playlist_items (items : string) (o : ydl_opts) : ydl_opts :=
  {| format := format o; outtmpl := outtmpl o;
     progress_hooks := progress_hooks o; ignoreerrors := ignoreerrors o;
     no_warnings := no_warnings o; quiet := quiet o;
     postprocessors := postprocessors o;
     playliststart := playliststart o; playlistend := playlistend o;
     playlist_items := Some items |}.

(** What the program does to the outside world, in the order it does it.
    [EvLogError e] is the record of
    [logger.error(f"An error occurred: {str(e)}")]. *)
Inductive event : Type :=
  | EvLogInfo (msg : string)
  | EvLogError (e : exn)
  | EvMkdir (path : string)
  | EvOpen (opts : ydl_opts)
  | EvExtractInfo (opts : ydl_opts) (url : pyval)
  | EvInput (prompt : string)
  | EvDownload (opts : ydl_opts) (urls : list pyval)
  | EvClose (opts : ydl_opts).

(** The outside world as the program meets it: each operation returns or
    raises.  [ydl_extract_info] is [extract_info(url, download=False)];
    it may return [None], as the library does for a failed extraction
    when [ignoreerrors] is set. *)
Record Env : Type := {
  fs_mkdir : string -> py_result unit;
  ydl_open : ydl_opts -> py_result unit;
  ydl_extract_info : ydl_opts -> pyval -> py_result (option info_dict);
  ydl_download : ydl_opts -> list pyval -> py_result unit;
  ydl_close : ydl_opts -> py_result unit;
  stdin_input : string -> py_result string
}.

(** Computations that return or raise and extend the trace of events. *)
Definition M (A : Type) : Type := list event -> py_result A * list event.

Definition ret {A} (a : A) : M A := fun t => (Returns a, t).

Definition raise {A} (e : exn) : M A := fun t => (Raises e, t).

Definition bind {A B} (m : M A) (k : A -> M B) : M B :=
  fun t =>
    match m t with
    | (Returns a, t') => k a t'
    | (Raises e, t') => (Raises e, t')
    end.

Definition lift {A} (r : py_result A) : M A := fun t => (r, t).

(** An operation on the outside world: it is recorded, then it returns or
    raises. *)
Definition call {A} (ev : event) (outcome : py_result A) : M A :=
  fun t => (outcome, (t ++ [ev])%list).

Declare Scope py_scope.
Delimit Scope py_scope with py.
Notation "x <- m ;; k" := (bind m (fun x => k))
  (at level 100, m at level 99, k at level 200, right associativity)
  : py_scope.
Notation "m ;; k" := (bind m (fun _ => k))
  (at level 100, k at level 200, right associativity) : py_scope.
Open Scope py_scope.

(** [try: body except Exception as e: handler(e)] *)
Definition try_except_Exception {A} (body : M A) (handler : exn -> M A)
  : M A :=
  fun t =>
    match body t with
    | (Returns a, t') => (Returns a, t')
    | (Raises e, t') =>
        if is_Exception e then handler e t' else (Raises e, t')
    end.

(** [with enter as x: body]: when the context is entered it is also left,
    however the body ends; an exception of the exit replaces the body's. *)
Definition with_context {A} (enter leave : M unit) (body : M A) : M A :=
  fun t =>
    match enter t with
    | (Raises e, t1) => (Raises e, t1)
    | (Returns _, t1) =>
        match body t1 with
        | (r, t2) =>
            match leave t2 with
            | (Raises e, t3) => (Raises e, t3)
            | (Returns _, t3) => (r, t3)
            end
        end
    end.

Definition log_info (msg : string) : M unit :=
  call (EvLogInfo msg) (Returns tt).

Definition log_error (e : exn) : M unit :=
  call (EvLogError e) (Returns tt).

(** [Path(output_path)] *)
Definition Path (output_path : pyval) : py_result string :=
  match output_path with
  | PyStr s => Returns s
  | PyNone => Raises TypeError
  end.

(** [start, end = map(int, parts)]: with fewer or more than two parts the
    unpacking raises [ValueError], as a failing [int] does. *)
Definition unpack_int_pair (parts : list string) : py_result (Z * Z) :=
  match parts with
  | [a; b] =>
      bind_result (py_int (PyStr a)) (fun start =>
      bind_result (py_int (PyStr b)) (fun end_ =>
      Returns (start, end_)))
  | _ => Raises ValueError
  end.

(** Lines 104 to 124: the configuration dict and its playlist entries. *)
Definition build_ydl_opts (output_path : pyval) (audio_only : bool)
    (audio_format playlist_items : pyval) : py_result ydl_opts :=
  let ydl_opts :=
    {| format := if audio_only then "bestaudio/best"
                 else "bestvideo+bestaudio/best";
       outtmpl := format_val output_path +:+ "/%(title)s.%(ext)s";
       progress_hooks := [LogProgress];
       ignoreerrors := true;
       no_warnings := false;
       quiet := false;
       postprocessors :=
         if audio_only
         then [ {| key := "FFmpegExtractAudio";
                   preferredcodec := audio_format;
                   preferredquality := "192" |} ]
         else [];
       playliststart := None;
       playlistend := None;
       playlist_items := None |} in
  match playlist_items with
  | PyStr items =>
      if truthy playlist_items then
        if PyStr.contains "-" items then
          bind_result (unpack_int_pair (PyStr.split "-" items)) (fun se =>
            Returns (set_playlist_range (fst se) (snd se) ydl_opts))
        else Returns (set_playlist_items items ydl_opts)
      else Returns ydl_opts
  | PyNone => Returns ydl_opts
  end.

(** [f"{n:02d}"] *)
Definition format_02d (n : Z) : string :=
  let s := PyStr.str_of_int n in
  if (String.length s <? 2)%nat then "0" +:+ s else s.

(** [info.get('title', fallback)] inside an f-string. *)
Definition title_or (info : info_dict) (fallback : string) : string :=
  match info_title info with
  | Absent => fallback
  | IsNone => "None"
  | Has s => s
  end.

(** Lines 132 to 139: the summary of the probe result. *)
Definition log_summary (info : option info_dict) (playlist_items : pyval)
  : M unit :=
  match info with
  | None => raise TypeError
  | Some info =>
      match info_entries info with
      | Absent =>
          log_info ("Title: " +:+ title_or info "Unknown Title") ;;
          match info_duration info with
          | IsNone => raise TypeError
          | Absent => log_info ("Duration: " +:+ PyStr.str_of_int (0 / 60)
                                +:+ ":" +:+ format_02d (0 mod 60))
          | Has d => log_info ("Duration: " +:+ PyStr.str_of_int (d / 60)
                               +:+ ":" +:+ format_02d (d mod 60))
          end
      | entries =>
          log_info ("Playlist: " +:+ title_or info "Unknown Playlist") ;;
          match entries with
          | Has n =>
              log_info ("Number of videos: "
                        +:+ PyStr.str_of_int (Z.of_nat n)) ;;
              if truthy playlist_items
              then log_info ("Downloading videos: "
                             +:+ format_val playlist_items)
              else ret tt
          | _ => raise TypeError
          end
      end
  end.

Definition confirm_prompt : string :=
  String "010" "Proceed with download? (y/n): ".

Section Orchestrator.

Variable env : Env.

(** The body of the [with] block; [Some b] is an early [return b]. *)
Definition probe_confirm_download (opts : ydl_opts) (url playlist_items : pyval)
  : M (option bool) :=
  info <- call (EvExtractInfo opts url) (ydl_extract_info env opts url) ;;
  log_summary info playlist_items ;;
  answer <- call (EvInput confirm_prompt) (stdin_input env confirm_prompt) ;;
  if negb (String.eqb (PyStr.lower answer) "y") then
    log_info "Download cancelled by user" ;;
    ret (Some false)
  else
    call (EvDownload opts [url]) (ydl_download env opts [url]) ;;
    ret None.

Definition download_videos (url output_path quality : pyval)
    (audio_only : bool) (audio_format playlist_items : pyval) : M bool :=
  path <- lift (Path output_path) ;;
  call (EvMkdir path) (fs_mkdir env path) ;;
  opts <- lift (build_ydl_opts output_path audio_only audio_format
                  playlist_items) ;;
  try_except_Exception
    (log_info ("Starting download from: " +:+ format_val url) ;;
     returned <- with_context
                   (call (EvOpen opts) (ydl_open env opts))
                   (call (EvClose opts) (ydl_close env opts))
                   (probe_confirm_download opts url playlist_items) ;;
     match returned with
     | Some b => ret b
     | None =>
         log_info "Download completed successfully!" ;;
         ret true
     end)
    (fun e =>
       log_error e ;;
       ret false).

(** Lines 167 to 184 of [main]: from the collected preferences to the call
    of [download_videos]. *)
Definition main_attempt (is_playlist_url : bool) (preferences : Preferences)
  : M bool :=
  download_type <- lift (dict_getitem preferences "download_type") ;;
  let audio_only := pyval_eqb download_type (PyStr "Audio Only") in
  quality <- lift (if negb audio_only
                   then dict_getitem preferences "quality"
                   else Returns (PyStr "best")) ;;
  audio_format <- lift (if audio_only
                        then dict_getitem preferences "audio_format"
                        else Returns (PyStr "mp3")) ;;
  playlist_items <-
    lift (if is_playlist_url
             && truthy (dict_get preferences "playlist_options")
          then get_playlist_config preferences
          else Returns PyNone) ;;
  url <- lift (dict_getitem preferences "url") ;;
  output_path <- lift (dict_getitem preferences "output_path") ;;
  download_videos url output_path quality audio_only audio_format
    playlist_items.

End Orchestrator.

(** ** Observing a trace *)

(** The probe calls of a trace, in order. *)
Definition probes (t : list event) : list (ydl_opts * pyval) :=
  flat_map (fun ev => match ev with
                      | EvExtractInfo o u => [(o, u)]
                      | _ => []
                      end) t.

(** The download calls of a trace, in order. *)
Definition downloads (t : list event) : list (ydl_opts * list pyval) :=
  flat_map (fun ev => match ev with
                      | EvDownload o us => [(o, us)]
                      | _ => []
                      end) t.

(** The errors logged in a trace, in order. *)
Definition logged_errors (t : list event) : list exn :=
  flat_map (fun ev => match ev with
                      | EvLogError e => [e]
                      | _ => []
                      end) t.

(** The prompts answered on the terminal, in order. *)
Definition inputs (t : list event) : list string :=
  flat_map (fun ev => match ev with
                      | EvInput p => [p]
                      | _ => []
                      end) t.

(** The library's own failures are errors in the sense of [except
    Exception]: none of its operations raises a bare [BaseException]. *)
Definition raises_only_errors {A} (r : py_result A) : Prop :=
  match r with
  | Raises e => is_Exception e = true
  | Returns _ => True
  end.

Definition library_raises_errors (env : Env) : Prop :=
  (forall o, raises_only_errors (ydl_open env o))
  /\ (forall o u, raises_only_errors (ydl_extract_info env o u))
  /\ (forall o us, raises_only_errors (ydl_download env o us))
  /\ (forall o, raises_only_errors (ydl_close env o)).

(** How the configuration restricts a playlist. *)
Inductive selection : Type :=
  | Unrestricted
  | Range (start end_ : Z)
  | Indices (items : string).

Definition selection_of_opts (o : ydl_opts) : selection :=
  match playliststart o, playlistend o, playlist_items o with
  | Some a, Some b, _ => Range a b
  | _, _, Some items => Indices items
  | _, _, _ => Unrestricted
  end.

(** A token of an index list names a playlist position: a positive integer. *)
Definition positive_index (token : string) : Prop :=
  exists n : Z, PyStr.int_of_str token = Some n /\ 0 < n.

(** The invariant the data model asks of a selection. *)
Definition selection_invariant (sel : selection) : Prop :=
  match sel with
  | Unrestricted => True
  | Range a b => a <= b
  | Indices items => Forall positive_index (PyStr.split "," items)
  end.

(** An affirmative answer to the confirmation: [answer.lower() == 'y']. *)
Definition affirmative (answer : string) : bool :=
  String.eqb (PyStr.lower answer) "y".

(** A session in which every line the user types is ASCII text. *)
Definition ascii_entries (script : list user_action) : Prop :=
  Forall (fun action => match action with
                        | Typed text => PyStr.is_ascii text = true
                        | Picked _ => True
                        end) script.

(** The invariant of the data model, said of the collector: whatever
    preferences a session yields, the selection they lead to in the
    configuration keeps [selection_invariant]. *)
Definition collector_selection_invariant
    (urlparse : string -> py_result ParseResult) : Prop :=
  forall is_playlist_url script preferences rest items
         output_path audio_only audio_format opts,
    get_user_input urlparse is_playlist_url script = Some (preferences, rest) ->
    get_playlist_config preferences = Returns items ->
    build_ydl_opts output_path audio_only audio_format items = Returns opts ->
    selection_invariant (selection_of_opts opts).

(** ** Sample sessions *)

(** A stand-in for the address validation of bracketed hosts: it accepts
    them all.  A URL without square brackets never reaches it. *)
Definition any_bracketed_host (_ : string) : bool := true.

Definition std_urlparse : string -> py_result ParseResult :=
  Urllib.urlparse any_bracketed_host.

Definition playlist_url : string :=
  "https://www.youtube.com/playlist?list=PL1".

Definition video_url : string := "https://www.youtube.com/watch?v=abc".

(** A playlist session: range mode, start 5, end 1, video, 720p. *)
Definition session_range_5_1 : list user_action :=
  [ Typed playlist_url; Typed "downloads";
    Picked 1%nat; Typed "5"; Typed "1"; Picked 0%nat; Picked 2%nat ].

(** A playlist session: explicit indices, the single index 0. *)
Definition session_specific_zero : list user_action :=
  [ Typed playlist_url; Typed "downloads";
    Picked 2%nat; Typed "0"; Picked 0%nat; Picked 0%nat ].

(** A playlist session: explicit indices, entered as [1-3,5]. *)
Definition session_specific_hyphen : list user_action :=
  [ Typed playlist_url; Typed "downloads";
    Picked 2%nat; Typed "1-3,5"; Picked 0%nat; Picked 0%nat ].

(** A single video session: video with audio, 720p. *)
Definition session_video_720p : list user_action :=
  [ Typed video_url; Typed "downloads";
    Picked 0%nat; Picked 2%nat ].

Definition sample_info : info_dict :=
  {| info_title := Has "Clip"; info_entries := Absent;
     info_duration := Has 125 |}.

(** A world in which every operation succeeds, the probe returns
    [sample_info] and the user answers [answer] to the confirmation. *)
Definition cooperative_env (answer : string) : Env :=
  {| fs_mkdir := fun _ => Returns tt;
     ydl_open := fun _ => Returns tt;
     ydl_extract_info := fun _ _ => Returns (Some sample_info);
     ydl_download := fun _ _ => Returns tt;
     ydl_close := fun _ => Returns tt;
     stdin_input := fun _ => Returns answer |}.

(** A world like [cooperative_env], except that the probe raises [e]. *)
Definition probe_failing_env (e : exn) : Env :=
  {| fs_mkdir := fun _ => Returns tt;
     ydl_open := fun _ => Returns tt;
     ydl_extract_info := fun _ _ => Raises e;
     ydl_download := fun _ _ => Returns tt;
     ydl_close := fun _ => Returns tt;
     stdin_input := fun _ => Returns "y" |}.

(** A world like [cooperative_env "y"], except that the download raises
    [e]. *)
Definition download_failing_env (e : exn) : Env :=
  {| fs_mkdir := fun _ => Returns tt;
     ydl_open := fun _ => Returns tt;
     ydl_extract_info := fun _ _ => Returns (Some sample_info);
     ydl_download := fun _ _ => Raises e;
     ydl_close := fun _ => Returns tt;
     stdin_input := fun _ => Returns "y" |}.




(** The answers dict as the prompts fill it, in a playlist session and in a
    single video session. *)
Definition playlist_session_answers
    (url output_path mode start end_ indices download_type quality
       audio_format : pyval) : Preferences :=
  <["audio_format" := audio_format]>
    (<["quality" := quality]>
       (<["download_type" := download_type]>
          (<["video_indices" := indices]>
             (<["end_index" := end_]>
                (<["start_index" := start]>
                   (<["playlist_options" := mode]>
                      (<["output_path" := output_path]>
                         (<["url" := url]> ∅)))))))).

Definition video_session_answers
    (url output_path download_type quality audio_format : pyval)
  : Preferences :=
  <["audio_format" := audio_format]>
    (<["quality" := quality]>
       (<["download_type" := download_type]>
          (<["output_path" := output_path]> (<["url" := url]> ∅)))).

(** What [session_range_5_1], [session_specific_zero],
    [session_specific_hyphen] and [session_video_720p] leave behind. *)
Definition prefs_range_5_1 : Preferences :=
  playlist_session_answers (PyStr playlist_url) (PyStr "downloads")
    (PyStr "Select range") (PyStr "5") (PyStr "1") PyNone
    (PyStr "Video with Audio") (PyStr "720p") PyNone.

Definition prefs_specific_zero : Preferences :=
  playlist_session_answers (PyStr playlist_url) (PyStr "downloads")
    (PyStr "Specific videos") PyNone PyNone (PyStr "0")
    (PyStr "Video with Audio") (PyStr "best") PyNone.

Definition prefs_specific_hyphen : Preferences :=
  playlist_session_answers (PyStr playlist_url) (PyStr "downloads")
    (PyStr "Specific videos") PyNone PyNone (PyStr "1-3,5")
    (PyStr "Video with Audio") (PyStr "best") PyNone.

Definition prefs_video_720p : Preferences :=
  video_session_answers (PyStr video_url) (PyStr "downloads")
    (PyStr "Video with Audio") (PyStr "720p") PyNone.

(** The configuration built for video with audio into [downloads], with no
    playlist selection. *)
Definition opts_video_downloads : ydl_opts :=
  {| format := "bestvideo+bestaudio/best";
     outtmpl := "downloads/%(title)s.%(ext)s";
     progress_hooks := [LogProgress];
     ignoreerrors := true;
     no_warnings := false;
     quiet := false;
     postprocessors := [];
     playliststart := None;
     playlistend := None;
     playlist_items := None |}.

(** An error of the extraction library. *)
Definition sample_error : exn := DownloadError "network unreachable".

(** One call of [download_videos] for [video_url]: video with audio, best
    quality, into [downloads], on a fresh trace. *)
Definition sample_run (env : Env) : py_result bool * list event :=
  download_videos env (PyStr video_url) (PyStr "downloads") (PyStr "best")
    false (PyStr "mp3") PyNone [].

(** ** Calls that leave the program *)

Definition is_log (ev : event) : bool :=
  match ev with
  | EvLogInfo _ | EvLogError _ => true
  | _ => false
  end.

(** The events of a trace that reach the file system, the terminal or the
    library: all but the log lines, in order. *)
Definition calls (t : list event) : list event :=
  List.filter (fun ev => negb (is_log ev)) t.

(** A computation that leaves the events before it alone: it appends its
    own, and its outcome does not depend on what came before. *)
Definition appends {A} (m : M A) : Prop :=
  forall t, m t = (fst (m []), (t ++ snd (m []))%list).

(** Text on which the embedding's [isdigit] and [int] agree with CPython's:
    ASCII, and no longer than the 4300 characters up to which [int] reads
    a decimal literal whatever its value. *)
Definition plain_text (text : string) : Prop :=
  PyStr.is_ascii text = true /\ Z.of_nat (String.length text) <= 4300.

(** ["0" * k] *)
Fixpoint zeros (k : nat) : string :=
  match k with
  | O => ""
  | S k => String "0" (zeros k)
  end.

(** A session in which every line the user types is [plain_text]. *)
Definition plain_entries (script : list user_action) : Prop :=
  Forall (fun action => match action with
                        | Typed text => plain_text text
                        | Picked _ => True
                        end) script.

(** ** The session loop of [main] *)

Definition url_prompt : string := "Enter YouTube URL (video or playlist): ".

Definition continue_prompt : string :=
  String "010" "Would you like to download another video/playlist? (y/n): ".

Definition banner : string :=
  String "010" "=== YouTube Downloader ===" +:+ String "010" "".

Definition goodbye : string :=
  String "010" "Thank you for using YouTube Downloader!".

(** One pass of the loop: the world it runs in, and what the user does at
    the prompts of [get_user_input]. *)
Record round : Type := {
  round_env : Env;
  round_entries : list user_action
}.

(** How a pass of the loop ends: the loop goes on, the loop is left, an
    exception leaves [main], or the entries run out before the prompts of
    [get_user_input] are completed, and the program waits at a prompt.
    Cancelling a prompt is not among the [user_action]s: on Ctrl-C
    [inquirer.prompt] returns [None], which [main] then subscripts.  What
    is said of a pass that does not wait holds of the program as it is;
    a pass that waits says nothing of a cancelled one. *)
Inductive pass_result : Type :=
  | Continues
  | Stops
  | Crashes (e : exn)
  | Waits.

(** What [main] shows and does: the events of its passes, and what it
    prints itself. *)
Inductive output : Type :=
  | Did (ev : event)
  | Printed (text : string).

(** How [main] ends: the loop was left, an exception left [main], or the
    prompts are still waiting for the user. *)
Inductive session_result : Type :=
  | Finished
  | Crashed (e : exn)
  | Waiting.

Section Session.

Variable urlparse : string -> py_result ParseResult.

(** The body of the [while True] loop: the first URL prompt, the
    preference prompts, the attempt, and the question whether to go on. *)
Definition main_iteration (r : round) : pass_result * list event :=
  let env := round_env r in
  match stdin_input env url_prompt with
  | Raises e => (Crashes e, [EvInput url_prompt])
  | Returns url =>
      let is_playlist_url := is_playlist url in
      match get_user_input urlparse is_playlist_url (round_entries r) with
      | None => (Waits, [EvInput url_prompt])
      | Some (preferences, _) =>
          match main_attempt env is_playlist_url preferences
                  [EvInput url_prompt] with
          | (Raises e, t) => (Crashes e, t)
          | (Returns success, t) =>
              match stdin_input env continue_prompt with
              | Raises e => (Crashes e, (t ++ [EvInput continue_prompt])%list)
              | Returns answer =>
                  if negb (String.eqb (PyStr.lower answer) "y")
                  then (Stops, (t ++ [EvInput continue_prompt])%list)
                  else (Continues, (t ++ [EvInput continue_prompt])%list)
              end
          end
      end
  end.

(** The loop, one round for each pass; [break] prints the farewell. *)
Fixpoint main_loop (rounds : list round) : session_result * list output :=
  match rounds with
  | [] => (Waiting, [])
  | r :: rest =>
      match main_iteration r with
      | (Continues, t) =>
          let (result, later) := main_loop rest in
          (result, (map Did t ++ later)%list)
      | (Stops, t) => (Finished, (map Did t ++ [Printed goodbye])%list)
      | (Crashes e, t) => (Crashed e, map Did t)
      | (Waits, t) => (Waiting, map Did t)
      end
  end.

Definition main (rounds : list round) : session_result * list output :=
  let (result, t) := main_loop rounds in
  (result, Printed banner :: t).

(** A pass in which the library and the confirmation prompt raise nothing
    but errors, the directory can be created, the two prompts of [main] are
    answered, the prompts of [get_user_input] are completed with
    [plain_text] entries, and the explicit index list, if the session
    leaves one, holds no hyphen. *)
Definition benign_round (r : round) : Prop :=
  library_raises_errors (round_env r)
  /\ (forall path, fs_mkdir (round_env r) path = Returns tt)
  /\ raises_only_errors (stdin_input (round_env r) confirm_prompt)
  /\ (exists answer,
        stdin_input (round_env r) continue_prompt = Returns answer)
  /\ plain_entries (round_entries r)
  /\ exists first preferences rest,
       stdin_input (round_env r) url_prompt = Returns first
       /\ get_user_input urlparse (is_playlist first) (round_entries r)
          = Some (preferences, rest)
       /\ forall text,
            preferences !! "video_indices" = Some (PyStr text) ->
            PyStr.contains "-" text = false.

End Session.

(** What [main] printed, in order. *)
Definition printed (t : list output) : list string :=
  flat_map (fun o => match o with
                     | Printed text => [text]
                     | Did _ => []
                     end) t.

(** The world [env], with [url] typed at the first prompt of a pass. *)
Definition answer_url (env : Env) (url : string) : Env :=
  {| fs_mkdir := fs_mkdir env;
     ydl_open := ydl_open env;
     ydl_extract_info := ydl_extract_info env;
     ydl_download := ydl_download env;
     ydl_close := ydl_close env;
     stdin_input := fun prompt =>
                      if String.eqb prompt url_prompt then Returns url
                      else stdin_input env prompt |}.

(** ** Sample worlds and rounds *)

(** A world in which the output directory cannot be created. *)
Definition mkdir_failing_env : Env :=
  {| fs_mkdir := fun _ => Raises OSError;
     ydl_open := fun _ => Returns tt;
     ydl_extract_info := fun _ _ => Returns (Some sample_info);
     ydl_download := fun _ _ => Returns tt;
     ydl_close := fun _ => Returns tt;
     stdin_input := fun _ => Returns "y" |}.

(** A world in which the probe returns [None], as the library does with
    [ignoreerrors] for a video it cannot extract. *)
Definition probe_empty_env : Env :=
  {| fs_mkdir := fun _ => Returns tt;
     ydl_open := fun _ => Returns tt;
     ydl_extract_info := fun _ _ => Returns None;
     ydl_download := fun _ _ => Returns tt;
     ydl_close := fun _ => Returns tt;
     stdin_input := fun _ => Returns "y" |}.

(** A world in which the terminal is at end of file. *)
Definition stdin_closed_env : Env :=
  {| fs_mkdir := fun _ => Returns tt;
     ydl_open := fun _ => Returns tt;
     ydl_extract_info := fun _ _ => Returns (Some sample_info);
     ydl_download := fun _ _ => Returns tt;
     ydl_close := fun _ => Returns tt;
     stdin_input := fun _ => Raises EOFError |}.


(** Preferences of the range mode with no index entered. *)
Definition prefs_range_unfilled : Preferences :=
  <["playlist_options" := PyStr "Select range"]> ∅.

(** A pass for [video_url] in a cooperative world: video with audio at
    720p, and [answer] given to the confirmation and to the question
    whether to go on. *)
Definition sample_round (answer : string) : round :=
  {| round_env := answer_url (cooperative_env answer) video_url;
     round_entries := session_video_720p |}.

(** * Properties *)

(** ** Strings *)

#[local] Arguments String.append !s1 s2 : simpl nomatch.
#[local] Arguments Ascii.eqb : simpl never.

Section StringFacts.

Lemma startswith_iff (a b : string) :
  PyStr.startswith a b = true <-> exists post, b = a +:+ post.
Proof.
  revert b; induction a as [|x a IH]; intros b; simpl.
  - split; [intros _; now exists b | intros _; reflexivity].
  - destruct b as [|y b].
    + split; [discriminate | intros [post H]; discriminate].
    + rewrite andb_true_iff, Ascii.eqb_eq, IH. split.
      * intros [-> [post ->]]. now exists post.
      * intros [post H]. inversion H. split; [reflexivity | now exists post].
Qed.

(** [needle in hay] holds exactly when [needle] occurs in [hay]. *)
Lemma contains_iff (needle hay : string) :
  PyStr.contains needle hay = true
  <-> exists pre post, hay = pre +:+ needle +:+ post.
Proof.
  induction hay as [|c hay IH]; simpl.
  - rewrite orb_false_r, startswith_iff. split.
    + intros [post H]. now exists "", post.
    + intros [pre [post H]]. destruct pre; simpl in H; [now exists post|].
      discriminate.
  - rewrite orb_true_iff, IH, startswith_iff. split.
    + intros [[post H] | [pre [post H]]].
      * now exists "", post.
      * exists (String c pre), post. simpl. now rewrite H.
    + intros [pre [post H]]. destruct pre as [|d pre]; simpl in H.
      * left. now exists post.
      * right. inversion H. now exists pre, post.
Qed.

Lemma contains_char (c : ascii) (s : string) :
  PyStr.contains (String c "") s = PyStr.has_char c s.
Proof.
  induction s as [|d s IH]; simpl; [reflexivity|].
  rewrite IH. destruct (Ascii.ascii_dec c d) as [->|Hne].
  - rewrite Ascii.eqb_refl. now destruct s.
  - apply Ascii.eqb_neq in Hne. now rewrite Hne.
Qed.

Lemma drop_last_snoc (s : string) (c : ascii) :
  PyStr.drop_last (s +:+ String c "") = s.
Proof.
  induction s as [|d s IH]; simpl; [reflexivity|].
  rewrite IH. now destruct s.
Qed.


Lemma split_no_sep (c : ascii) (s : string) :
  PyStr.has_char c s = false -> PyStr.split c s = [s].
Proof.
  induction s as [|d s IH]; simpl; [reflexivity|].
  intros H. apply orb_false_iff in H as [Hcd Hs].
  rewrite Hcd, (IH Hs). reflexivity.
Qed.

Lemma split_app_sep (c : ascii) (a b : string) :
  PyStr.has_char c a = false ->
  PyStr.split c (a +:+ String c b) = a :: PyStr.split c b.
Proof.
  induction a as [|d a IH]; simpl.
  - intros _. now rewrite Ascii.eqb_refl.
  - intros H. apply orb_false_iff in H as [Hcd Ha].
    rewrite Hcd, (IH Ha). reflexivity.
Qed.

Lemma has_char_app (c : ascii) (a b : string) :
  PyStr.has_char c (a +:+ b) = PyStr.has_char c a || PyStr.has_char c b.
Proof.
  induction a as [|d a IH]; simpl; [reflexivity|].
  now rewrite IH, orb_assoc.
Qed.

Lemma replace_char_removes (c : ascii) (s : string) :
  PyStr.has_char c (PyStr.replace_char c "" s) = false.
Proof.
  induction s as [|d s IH]; simpl; [reflexivity|].
  destruct (Ascii.eqb c d) eqn:E; simpl; [exact IH|].
  now rewrite E, IH.
Qed.


End StringFacts.

(** ** Integers and their decimal text *)

Section IntFacts.

(** Replaces the value of a literal digit by its numeral. *)
Ltac eval_digit :=
  match goal with
  | |- context [PyStr.digit_val ?c] =>
      let v := eval vm_compute in (PyStr.digit_val c) in
      change (PyStr.digit_val c) with v
  end.

Lemma is_digit_range (c : ascii) :
  PyStr.is_digit c = true -> 0 <= PyStr.digit_val c <= 9.
Proof.
  unfold PyStr.is_digit, PyStr.digit_val. intros H.
  apply andb_true_iff in H as [H1 H2].
  apply Nat.leb_le in H1, H2. lia.
Qed.

Lemma is_digit_not_space (c : ascii) :
  PyStr.is_digit c = true -> PyStr.is_space c = false.
Proof.
  unfold PyStr.is_digit, PyStr.is_space. intros H.
  apply andb_true_iff in H as [H1 H2]. apply Nat.leb_le in H1, H2.
  apply orb_false_iff; split.
  - apply andb_false_iff; right. apply Nat.leb_gt. lia.
  - apply Nat.eqb_neq. lia.
Qed.

Lemma all_digits_uint (d : Decimal.uint) :
  PyStr.all_digits (NilEmpty.string_of_uint d) = true.
Proof. induction d; simpl; auto. Qed.

Lemma all_digits_no_char (c : ascii) (s : string) :
  PyStr.is_digit c = false -> PyStr.all_digits s = true ->
  PyStr.has_char c s = false.
Proof.
  intros Hc. induction s as [|d s IH]; simpl; [reflexivity|].
  intros H. apply andb_true_iff in H as [Hd Hs].
  rewrite (IH Hs), orb_false_r. apply Ascii.eqb_neq. congruence.
Qed.

Lemma rstrip_digits (s : string) :
  PyStr.all_digits s = true -> PyStr.rstrip s = s.
Proof.
  induction s as [|c s IH]; simpl; [reflexivity|].
  intros H. apply andb_true_iff in H as [Hc Hs].
  rewrite (IH Hs). destruct s; [|reflexivity].
  now rewrite (is_digit_not_space c Hc).
Qed.

Lemma strip_digits (s : string) :
  PyStr.all_digits s = true -> PyStr.strip s = s.
Proof.
  intros H. unfold PyStr.strip.
  destruct s as [|c s]; [reflexivity|]. simpl in H |- *.
  pose proof H as H'. apply andb_true_iff in H' as [Hc _].
  rewrite (is_digit_not_space c Hc). now apply rstrip_digits.
Qed.

(** Reading digits onto a positive accumulator is the library's
    accumulating conversion. *)
Lemma int_digits_uint_pos (d : Decimal.uint) (acc : positive) :
  PyStr.int_digits (NilEmpty.string_of_uint d) false (Z.pos acc)
  = Some (Z.pos (Pos.of_uint_acc d acc)).
Proof.
  revert acc; induction d; intros acc; simpl; [reflexivity | ..];
    eval_digit; rewrite <- IHd; f_equal; lia.
Qed.

Lemma int_digits_uint_zero (d : Decimal.uint) :
  PyStr.int_digits (NilEmpty.string_of_uint d) false 0
  = Some (Z.of_N (Pos.of_uint d)).
Proof.
  induction d; simpl; [reflexivity | exact IHd | ..];
    eval_digit; simpl; rewrite <- int_digits_uint_pos; reflexivity.
Qed.

Lemma int_unsigned_uint (d : Decimal.uint) :
  d <> Decimal.Nil ->
  PyStr.int_unsigned (NilEmpty.string_of_uint d)
  = Some (Z.of_N (Pos.of_uint d)).
Proof.
  intros Hd. rewrite <- int_digits_uint_zero.
  destruct d; [contradiction | reflexivity ..].
Qed.

Lemma to_uint_not_nil (p : positive) : Pos.to_uint p <> Decimal.Nil.
Proof.
  intros H. pose proof (DecimalPos.Unsigned.of_to p) as E.
  rewrite H in E. discriminate.
Qed.

Lemma string_of_pos (p : positive) :
  NilZero.string_of_uint (Pos.to_uint p)
  = NilEmpty.string_of_uint (Pos.to_uint p).
Proof.
  pose proof (to_uint_not_nil p). now destruct (Pos.to_uint p).
Qed.

Lemma int_unsigned_pos (p : positive) :
  PyStr.int_unsigned (NilEmpty.string_of_uint (Pos.to_uint p))
  = Some (Z.pos p).
Proof.
  rewrite int_unsigned_uint by apply to_uint_not_nil.
  now rewrite DecimalPos.Unsigned.of_to.
Qed.

Lemma first_char_digit (d : Decimal.uint) :
  d <> Decimal.Nil ->
  exists c rest, NilEmpty.string_of_uint d = String c rest
                 /\ PyStr.is_digit c = true.
Proof.
  intros Hd. destruct d; [contradiction | ..]; simpl; eauto.
Qed.

(** The text of a non-negative integer consists of digits. *)
Lemma str_of_int_digits (z : Z) :
  0 <= z -> PyStr.isdigit (PyStr.str_of_int z) = true.
Proof.
  intros Hz. destruct z as [|p|p]; [reflexivity | | lia].
  unfold PyStr.str_of_int. simpl. rewrite string_of_pos.
  destruct (first_char_digit _ (to_uint_not_nil p)) as [c [rest [E Hc]]].
  pose proof (all_digits_uint (Pos.to_uint p)) as Hall.
  rewrite E in Hall |- *. exact Hall.
Qed.

Lemma isdigit_all_digits (s : string) :
  PyStr.isdigit s = true -> PyStr.all_digits s = true.
Proof. now destruct s. Qed.

(** [int(str(z)) == z] *)
Theorem int_of_str_of_int (z : Z) :
  PyStr.int_of_str (PyStr.str_of_int z) = Some z.
Proof.
  destruct z as [|p|p]; [reflexivity | |].
  - unfold PyStr.str_of_int, PyStr.int_of_str. simpl.
    rewrite string_of_pos.
    rewrite strip_digits by apply all_digits_uint.
    rewrite <- int_unsigned_pos.
    pose proof (to_uint_not_nil p). now destruct (Pos.to_uint p).
  - unfold PyStr.str_of_int, PyStr.int_of_str. simpl.
    rewrite string_of_pos.
    assert (PyStr.strip (String "-" (NilEmpty.string_of_uint (Pos.to_uint p)))
            = String "-" (NilEmpty.string_of_uint (Pos.to_uint p))) as ->.
    { unfold PyStr.strip. simpl.
      rewrite rstrip_digits by apply all_digits_uint.
      pose proof (to_uint_not_nil p). now destruct (Pos.to_uint p). }
    now rewrite int_unsigned_pos.
Qed.

Lemma int_digits_all_digits (s : string) (acc : Z) :
  PyStr.all_digits s = true -> 0 <= acc ->
  exists v, PyStr.int_digits s false acc = Some v /\ 0 <= v.
Proof.
  revert acc; induction s as [|c s IH]; intros acc; simpl.
  - intros _ Hacc. eauto.
  - intros H Hacc. apply andb_true_iff in H as [Hc Hs]. rewrite Hc.
    apply IH; [exact Hs|]. pose proof (is_digit_range c Hc). lia.
Qed.

(** [int] of a string of digits is a non-negative integer. *)
Lemma int_of_str_isdigit (s : string) :
  PyStr.isdigit s = true ->
  exists v, PyStr.int_of_str s = Some v /\ 0 <= v.
Proof.
  intros H. apply isdigit_all_digits in H as Hall.
  unfold PyStr.int_of_str. rewrite (strip_digits s Hall).
  destruct s as [|c s]; [discriminate|]. simpl in Hall.
  apply andb_true_iff in Hall as [Hc Hs].
  assert (PyStr.int_unsigned (String c s)
          = PyStr.int_digits s false (PyStr.digit_val c)) as Hu.
  { simpl. now rewrite Hc. }
  destruct (int_digits_all_digits s (PyStr.digit_val c) Hs) as [v [Hv Hpos]].
  { pose proof (is_digit_range c Hc). lia. }
  exists v. split; [|exact Hpos]. rewrite <- Hv, <- Hu.
  assert (Ascii.eqb c "+" = false) as Hplus.
  { apply Ascii.eqb_neq. intros ->. discriminate. }
  assert (Ascii.eqb c "-" = false) as Hminus.
  { apply Ascii.eqb_neq. intros ->. discriminate. }
  destruct c as [[] [] [] [] [] [] [] []]; try reflexivity;
    discriminate.
Qed.

Lemma str_of_int_no_hyphen (z : Z) :
  0 <= z -> PyStr.has_char "-" (PyStr.str_of_int z) = false.
Proof.
  intros Hz. apply all_digits_no_char; [reflexivity|].
  apply isdigit_all_digits, str_of_int_digits, Hz.
Qed.

(** A string of digits is the text of a decimal numeral. *)
Lemma all_digits_is_uint (s : string) :
  PyStr.all_digits s = true ->
  exists d, s = NilEmpty.string_of_uint d.
Proof.
  induction s as [|c s IH]; simpl; [now exists Decimal.Nil|].
  intros H. apply andb_true_iff in H as [Hc Hs].
  destruct (IH Hs) as [d ->].
  destruct c as [[] [] [] [] [] [] [] []]; try discriminate Hc.
  all: first [ now exists (Decimal.D0 d) | now exists (Decimal.D1 d)
             | now exists (Decimal.D2 d) | now exists (Decimal.D3 d)
             | now exists (Decimal.D4 d) | now exists (Decimal.D5 d)
             | now exists (Decimal.D6 d) | now exists (Decimal.D7 d)
             | now exists (Decimal.D8 d) | now exists (Decimal.D9 d) ].
Qed.

(** The text of a numeral is that of its normal form after some zeros. *)
Lemma uint_zeros_unorm (d : Decimal.uint) :
  d <> Decimal.Nil ->
  exists k,
    NilEmpty.string_of_uint d
    = zeros k +:+ NilZero.string_of_uint (Decimal.unorm d).
Proof.
  induction d as [|d IH|d _|d _|d _|d _|d _|d _|d _|d _|d _]; intros Hd.
  1: now contradiction Hd.
  2-10: now exists 0%nat.
  destruct (Decimal.uint_eq_dec d Decimal.Nil) as [->|Hne];
    [now exists 0%nat|].
  destruct (IH Hne) as [k Hk]. exists (S k).
  change (Decimal.unorm (Decimal.D0 d)) with (Decimal.unorm d).
  simpl. now rewrite Hk.
Qed.

Lemma str_of_int_of_N (n : N) :
  PyStr.str_of_int (Z.of_N n) = NilZero.string_of_uint (N.to_uint n).
Proof. now destruct n. Qed.

(** [int] of a string of digits is the number the digits spell: the string
    is the decimal text of that number after some zeros. *)
Lemma int_of_str_digits_value (s : string) :
  PyStr.isdigit s = true ->
  exists a k,
    PyStr.int_of_str s = Some a /\ 0 <= a
    /\ s = zeros k +:+ PyStr.str_of_int a.
Proof.
  intros H. apply isdigit_all_digits in H as Hall.
  destruct (all_digits_is_uint s Hall) as [d Hd].
  assert (d <> Decimal.Nil) as Hnil.
  { intros ->. subst s. discriminate H. }
  destruct (uint_zeros_unorm d Hnil) as [k Hk].
  exists (Z.of_N (Pos.of_uint d)), k.
  split; [|split; [lia|]].
  - unfold PyStr.int_of_str. rewrite (strip_digits s Hall).
    rewrite <- (int_unsigned_uint d Hnil), <- Hd.
    destruct s as [|c s]; [discriminate H|].
    simpl in Hall. apply andb_true_iff in Hall as [Hc _].
    destruct c as [[] [] [] [] [] [] [] []]; try reflexivity;
      discriminate Hc.
  - rewrite str_of_int_of_N.
    change (Pos.of_uint d) with (N.of_uint d).
    now rewrite DecimalN.Unsigned.to_of, Hd.
Qed.

End IntFacts.

(** ** The URL checks *)

Section UrlFacts.

Variable urlparse : string -> py_result ParseResult.

(** Whatever the parser does, [validate_url] returns a boolean. *)
Lemma validate_url_returns (url : string) :
  validate_url urlparse url
  = Returns match urlparse url with
            | Returns parsed =>
                PyStr.contains "youtube.com" (netloc parsed)
                || PyStr.contains "youtu.be" (netloc parsed)
            | Raises _ => false
            end.
Proof. unfold validate_url. now destruct (urlparse url). Qed.

Lemma validate_url_true_iff (url : string) :
  validate_url urlparse url = Returns true
  <-> exists parsed,
        urlparse url = Returns parsed
        /\ ((exists pre post,
               netloc parsed = pre +:+ "youtube.com" +:+ post)
            \/ (exists pre post,
                  netloc parsed = pre +:+ "youtu.be" +:+ post)).
Proof.
  rewrite validate_url_returns. destruct (urlparse url) as [parsed|e].
  - split.
    + intros H. exists parsed. split; [reflexivity|].
      rewrite <- !contains_iff, <- orb_true_iff. congruence.
    + intros [p [Hp H]]. inversion Hp; subst p.
      rewrite <- !contains_iff, <- orb_true_iff in H. now rewrite H.
  - split; [discriminate | intros [p [Hp _]]; discriminate].
Qed.

End UrlFacts.

(** C8: for every input string and every behaviour of the URL parser,
    [validate_url] returns a boolean and raises nothing; when the parser
    raises, whatever the exception, the answer is [false]. *)
Theorem validate_url_fails_closed
    (urlparse : string -> py_result ParseResult) (url : string) :
  (exists b : bool, validate_url urlparse url = Returns b)
  /\ (forall e, urlparse url = Raises e ->
                validate_url urlparse url = Returns false).
Proof.
  split.
  - rewrite validate_url_returns. eauto.
  - intros e He. rewrite validate_url_returns, He. reflexivity.
Qed.

Lemma validate_url_fails_closed_witness :
  std_urlparse "http://[broken" = Raises ValueError
  /\ validate_url std_urlparse "http://[broken" = Returns false.
Proof.
  split; [reflexivity|].
  exact (proj2 (validate_url_fails_closed std_urlparse "http://[broken")
           ValueError eq_refl).
Defined.

(** C10: [validate_url] answers true exactly when the URL parses and
    [youtube.com] or [youtu.be] occurs somewhere in the parsed netloc; so a
    URL of the unrelated host [notyoutube.com] is accepted. *)
Theorem validate_url_accepts_netloc_substring :
  (forall (urlparse : string -> py_result ParseResult) (url : string),
     validate_url urlparse url = Returns true
     <-> exists parsed,
           urlparse url = Returns parsed
           /\ ((exists pre post,
                  netloc parsed = pre +:+ "youtube.com" +:+ post)
               \/ (exists pre post,
                     netloc parsed = pre +:+ "youtu.be" +:+ post)))
  /\ (forall check_bracketed_host : string -> bool,
        exists url parsed,
          Urllib.urlparse check_bracketed_host url = Returns parsed
          /\ netloc parsed = "notyoutube.com"
          /\ validate_url (Urllib.urlparse check_bracketed_host) url
             = Returns true).
Proof.
  split.
  - apply validate_url_true_iff.
  - intros chk.
    exists "https://notyoutube.com/watch?v=abc",
           {| scheme := "https"; netloc := "notyoutube.com" |}.
    repeat split; reflexivity.
Qed.

(** C6: [is_playlist] is a total boolean function of the URL text; it
    answers true exactly when [playlist] or [&list=] occurs in the text, and
    false otherwise. *)
Theorem is_playlist_iff_marker (url : string) :
  (is_playlist url = true
   <-> (exists pre post, url = pre +:+ "playlist" +:+ post)
       \/ (exists pre post, url = pre +:+ "&list=" +:+ post))
  /\ (is_playlist url = false
      <-> ~ ((exists pre post, url = pre +:+ "playlist" +:+ post)
             \/ (exists pre post, url = pre +:+ "&list=" +:+ post))).
Proof.
  assert (is_playlist url = true
          <-> (exists pre post, url = pre +:+ "playlist" +:+ post)
              \/ (exists pre post, url = pre +:+ "&list=" +:+ post)) as H.
  { unfold is_playlist. now rewrite orb_true_iff, !contains_iff. }
  split; [exact H|]. rewrite <- H.
  destruct (is_playlist url); split; congruence.
Qed.

Example is_playlist_playlist_url :
  is_playlist "https://www.youtube.com/playlist?list=PL123" = true.
Proof. reflexivity. Qed.

Example is_playlist_watch_url :
  is_playlist "https://www.youtube.com/watch?v=abc" = false.
Proof. reflexivity. Qed.

Example is_playlist_malformed :
  is_playlist "::not a url::" = false.
Proof. reflexivity. Qed.

(** ** The format builder *)

Lemma get_format_string_best :
  get_format_string "best" = "bestvideo*+bestaudio/best".
Proof. reflexivity. Qed.

(** For a tier written as a height followed by one more character, the
    expression bounds the height by that prefix, in the video part and in
    the fallback. *)
Lemma get_format_string_height (height : string) (suffix : ascii) :
  height +:+ String suffix "" <> "best" ->
  get_format_string (height +:+ String suffix "")
  = "bestvideo[height<=" +:+ height +:+ "]+bestaudio/best[height<="
      +:+ height +:+ "]".
Proof.
  intros Hne. unfold get_format_string.
  apply String.eqb_neq in Hne. rewrite Hne, drop_last_snoc. reflexivity.
Qed.

(** C7: for each of the five tiers [get_format_string] returns a non-empty
    expression; for [best] it is best video plus best audio with the
    best-combined fallback, and for a height tier the bound written into the
    video part and into the fallback is the number in front of the [p]. *)
Theorem get_format_string_tiers (quality : string) :
  In quality quality_tiers ->
  get_format_string quality <> ""
  /\ (quality = "best" ->
      get_format_string quality = "bestvideo*+bestaudio/best")
  /\ (quality <> "best" ->
      exists h : Z,
        PyStr.int_of_str (PyStr.drop_last quality) = Some h
        /\ quality = PyStr.str_of_int h +:+ "p"
        /\ get_format_string quality
           = "bestvideo[height<=" +:+ PyStr.str_of_int h
               +:+ "]+bestaudio/best[height<=" +:+ PyStr.str_of_int h
               +:+ "]").
Proof.
  unfold quality_tiers. simpl.
  intros [<- | [<- | [<- | [<- | [<- | []]]]]];
    (split; [discriminate|]); (split; [reflexivity || discriminate|]);
    intros Hne; try (now contradiction Hne).
  - exists 1080. repeat split; reflexivity.
  - exists 720. repeat split; reflexivity.
  - exists 480. repeat split; reflexivity.
  - exists 360. repeat split; reflexivity.
Qed.

Lemma get_format_string_tiers_witness :
  In "720p" quality_tiers
  /\ get_format_string "720p"
     = "bestvideo[height<=720]+bestaudio/best[height<=720]".
Proof.
  assert (In "720p" quality_tiers) as Hin by (simpl; auto).
  split; [exact Hin|].
  destruct (get_format_string_tiers "720p" Hin) as [_ [_ H]].
  destruct H as [h [Hh [_ ->]]]; [discriminate|].
  vm_compute in Hh. injection Hh as <-. reflexivity.
Defined.

(** ** The preference collector *)

Section PromptFacts.

Lemma ask_text_valid valid script s rest :
  Inquirer.ask_text valid script = Some (s, rest) -> valid s = true.
Proof.
  induction script as [|[text|i] script IH]; simpl; try discriminate.
  destruct (valid text) eqn:E; [|exact IH].
  intros H. injection H as <- <-. exact E.
Qed.

(** Asking two lists of questions in a row. *)
Lemma prompt_app qs1 qs2 answers script :
  Inquirer.prompt (qs1 ++ qs2)%list answers script
  = match Inquirer.prompt qs1 answers script with
    | Some (a, r) => Inquirer.prompt qs2 a r
    | None => None
    end.
Proof.
  revert answers script; induction qs1 as [|q qs1 IH];
    intros answers script; simpl; [reflexivity|].
  destruct (Inquirer.render q answers script) as [[v rest]|];
    [apply IH | reflexivity].
Qed.

(** A prompt only writes the keys of its own questions. *)
Lemma prompt_frame qs (answers answers' : Preferences) script rest
    (k : string) :
  Inquirer.prompt qs answers script = Some (answers', rest) ->
  ~ In k (map Inquirer.q_name qs) ->
  answers' !! k = answers !! k.
Proof.
  revert answers script; induction qs as [|q qs IH];
    intros answers script; simpl.
  - intros H _. now injection H as <- <-.
  - destruct (Inquirer.render q answers script) as [[v r]|];
      [|discriminate].
    intros H Hk. rewrite (IH _ _ H) by tauto.
    apply lookup_insert_ne. tauto.
Qed.

Lemma dict_get_insert_eq (m : Preferences) k v :
  dict_get (<[k:=v]> m) k = v.
Proof. unfold dict_get. now rewrite lookup_insert_eq. Qed.

Lemma dict_get_insert_ne (m : Preferences) k k' v :
  k <> k' -> dict_get (<[k:=v]> m) k' = dict_get m k'.
Proof. intros H. unfold dict_get. now rewrite lookup_insert_ne. Qed.

End PromptFacts.

(** Decides the [ignore] conditions of the questions still to come. *)
Ltac eval_ignore_pass H :=
  repeat (rewrite dict_get_insert_ne in H by discriminate);
  rewrite ?dict_get_insert_eq in H;
  repeat match type of H with
  | context [pyval_eqb (PyStr ?a) (PyStr ?b)] =>
      let v := eval vm_compute in (pyval_eqb (PyStr a) (PyStr b)) in
      change (pyval_eqb (PyStr a) (PyStr b)) with v in H
  end;
  cbn [negb] in H; cbv iota in H.

Ltac eval_ignore H :=
  unfold unless_playlist_option, when_download_type in H;
  repeat (progress (eval_ignore_pass H)).

(** One text question: the entry that got through validates. *)
Ltac step_text H :=
  match type of H with
  | context [Inquirer.ask_text ?v ?s] =>
      let E := fresh "Etext" in
      destruct (Inquirer.ask_text v s) as [[? ?]|] eqn:E;
      [apply ask_text_valid in E; cbv iota in H; eval_ignore H
      | cbv iota in H; discriminate H]
  end.

Ltac lookup_insert :=
  unfold dict_get;
  repeat (rewrite lookup_insert_ne by discriminate);
  rewrite lookup_insert_eq; reflexivity.

Section CollectorFacts.

Variable urlparse : string -> py_result ParseResult.

(** What the playlist questions leave in the answers: one of the three
    modes, with digit strings for a range and any text for an index
    list. *)
Lemma playlist_answers answers script prefs rest :
  Inquirer.prompt playlist_questions answers script = Some (prefs, rest) ->
  (dict_get prefs "playlist_options" = PyStr "Select range"
   /\ exists s e, PyStr.isdigit s = true /\ PyStr.isdigit e = true
        /\ prefs !! "start_index" = Some (PyStr s)
        /\ prefs !! "end_index" = Some (PyStr e))
  \/ (dict_get prefs "playlist_options" = PyStr "Specific videos"
      /\ exists text, prefs !! "video_indices" = Some (PyStr text))
  \/ dict_get prefs "playlist_options" = PyStr "Full playlist".
Proof.
  unfold playlist_questions.
  cbn [Inquirer.prompt Inquirer.render Inquirer.q_ignore Inquirer.q_kind
       Inquirer.q_name Inquirer.q_default Inquirer.q_validate never_ignored].
  intros H.
  destruct script as [|[?|i] script]; try discriminate H.
  destruct i as [|[|[|i]]]; cbn [Inquirer.ask_list lookup list_lookup] in H;
    try discriminate H.
  all: unfold Inquirer.render in H;
    cbn [Inquirer.q_ignore Inquirer.q_kind Inquirer.q_name
         Inquirer.q_default Inquirer.q_validate] in H;
    eval_ignore H.
  - injection H as <- <-. right; right. lookup_insert.
  - step_text H. step_text H. injection H as <- <-.
    left. split; [lookup_insert|].
    eexists _, _.
    repeat split; [exact Etext | exact Etext0 | lookup_insert ..].
  - step_text H. injection H as <- <-.
    right; left. split; [lookup_insert|].
    eexists. lookup_insert.
Qed.

Lemma media_keeps_playlist_keys answers script prefs rest (k : string) :
  Inquirer.prompt media_questions answers script = Some (prefs, rest) ->
  In k ["playlist_options"; "start_index"; "end_index"; "video_indices"] ->
  prefs !! k = answers !! k.
Proof.
  intros H Hk. apply (prompt_frame _ _ _ _ _ _ H).
  simpl in Hk |- *.
  intros [<- | [<- | [<- | []]]];
    destruct Hk as [Hk | [Hk | [Hk | [Hk | []]]]]; discriminate Hk.
Qed.

(** The answers of a playlist session. *)
Lemma get_user_input_playlist script prefs rest :
  get_user_input urlparse true script = Some (prefs, rest) ->
  (dict_get prefs "playlist_options" = PyStr "Select range"
   /\ exists s e, PyStr.isdigit s = true /\ PyStr.isdigit e = true
        /\ prefs !! "start_index" = Some (PyStr s)
        /\ prefs !! "end_index" = Some (PyStr e))
  \/ (dict_get prefs "playlist_options" = PyStr "Specific videos"
      /\ exists text, prefs !! "video_indices" = Some (PyStr text))
  \/ dict_get prefs "playlist_options" = PyStr "Full playlist".
Proof.
  unfold get_user_input, questions. rewrite prompt_app.
  destruct (Inquirer.prompt (base_questions urlparse) ∅ script)
    as [[a1 r1]|]; cbv iota; [|discriminate].
  rewrite prompt_app.
  destruct (Inquirer.prompt playlist_questions a1 r1)
    as [[a2 r2]|] eqn:Hpl; cbv iota; [|discriminate].
  intros Hmedia. apply playlist_answers in Hpl.
  assert (forall k,
            In k ["playlist_options"; "start_index"; "end_index";
                  "video_indices"] ->
            prefs !! k = a2 !! k) as Hkeep.
  { intros k Hk. now apply (media_keeps_playlist_keys _ _ _ _ _ Hmedia). }
  unfold dict_get in *.
  rewrite !Hkeep by (simpl; tauto).
  destruct Hpl as [[Hm [s [e H]]] | [[Hm [text H]] | Hm]].
  - left. split; [exact Hm|]. exists s, e. exact H.
  - right; left. split; [exact Hm|]. exists text. exact H.
  - right; right. exact Hm.
Qed.

(** A session for a single video never asks for a playlist mode. *)
Lemma get_user_input_single script prefs rest :
  get_user_input urlparse false script = Some (prefs, rest) ->
  dict_get prefs "playlist_options" = PyNone.
Proof.
  unfold get_user_input, questions. intros H.
  unfold dict_get. rewrite (prompt_frame _ _ _ _ _ "playlist_options" H).
  - reflexivity.
  - simpl. intros [E | [E | [E | [E | [E | []]]]]]; discriminate E.
Qed.

End CollectorFacts.

(** ** The selection resolver *)

Section ResolverFacts.

Lemma truthy_app_cons (a b : string) (c : ascii) :
  truthy (PyStr (a +:+ String c b)) = true.
Proof. now destruct a. Qed.

(** The text [a-b] of two non-negative integers is read back by the
    orchestrator as the range from [a] to [b]. *)
Lemma build_ydl_opts_range (output_path audio_format : pyval)
    (audio_only : bool) (a b : Z) :
  0 <= a -> 0 <= b ->
  exists opts,
    build_ydl_opts output_path audio_only audio_format
      (PyStr (PyStr.str_of_int a +:+ "-" +:+ PyStr.str_of_int b))
    = Returns opts
    /\ selection_of_opts opts = Range a b.
Proof.
  intros Ha Hb. unfold build_ydl_opts.
  change ("-" +:+ PyStr.str_of_int b) with (String "-" (PyStr.str_of_int b)).
  cbv iota.
  rewrite truthy_app_cons, contains_char, has_char_app. simpl PyStr.has_char.
  rewrite orb_true_r. cbv iota.
  rewrite split_app_sep by now apply str_of_int_no_hyphen.
  rewrite split_no_sep by now apply str_of_int_no_hyphen.
  unfold unpack_int_pair, py_int. rewrite !int_of_str_of_int.
  simpl. eexists. split; reflexivity.
Qed.

Lemma get_playlist_config_range (preferences : Preferences) (s e : string)
    (a b : Z) :
  dict_get preferences "playlist_options" = PyStr "Select range" ->
  preferences !! "start_index" = Some (PyStr s) ->
  preferences !! "end_index" = Some (PyStr e) ->
  PyStr.int_of_str s = Some a ->
  PyStr.int_of_str e = Some b ->
  get_playlist_config preferences
  = Returns (PyStr (PyStr.str_of_int a +:+ "-" +:+ PyStr.str_of_int b)).
Proof.
  intros Hm Hs He Ha Hb. unfold get_playlist_config, dict_getitem, py_int.
  rewrite Hm, Hs, He. simpl. rewrite Ha. simpl. rewrite Hb. reflexivity.
Qed.

Lemma get_playlist_config_specific (preferences : Preferences)
    (text : string) :
  dict_get preferences "playlist_options" = PyStr "Specific videos" ->
  preferences !! "video_indices" = Some (PyStr text) ->
  get_playlist_config preferences
  = Returns (PyStr (PyStr.replace_char " " "" text)).
Proof.
  intros Hm Hv. unfold get_playlist_config, dict_getitem.
  rewrite Hm, Hv. reflexivity.
Qed.

Lemma get_playlist_config_other (preferences : Preferences) :
  dict_get preferences "playlist_options" <> PyStr "Select range" ->
  dict_get preferences "playlist_options" <> PyStr "Specific videos" ->
  get_playlist_config preferences = Returns PyNone.
Proof.
  intros H1 H2. unfold get_playlist_config.
  destruct (dict_get preferences "playlist_options") as [|m]; [reflexivity|].
  simpl. destruct (String.eqb_spec m "Select range") as [->|_];
    [now contradiction H1|].
  destruct (String.eqb_spec m "Specific videos") as [->|_];
    [now contradiction H2|].
  reflexivity.
Qed.

End ResolverFacts.

(** The descriptor of the range mode for two digit strings: the text
    [a-b] of the numbers the strings spell, which the orchestrator reads
    back as the range from [a] to [b]. *)
Lemma range_descriptor (preferences : Preferences) (s e : string) :
  dict_get preferences "playlist_options" = PyStr "Select range" ->
  preferences !! "start_index" = Some (PyStr s) ->
  preferences !! "end_index" = Some (PyStr e) ->
  PyStr.isdigit s = true -> PyStr.isdigit e = true ->
  exists a b k l,
    0 <= a /\ 0 <= b
    /\ s = zeros k +:+ PyStr.str_of_int a
    /\ e = zeros l +:+ PyStr.str_of_int b
    /\ PyStr.int_of_str s = Some a /\ PyStr.int_of_str e = Some b
    /\ get_playlist_config preferences
       = Returns (PyStr (PyStr.str_of_int a +:+ "-"
                         +:+ PyStr.str_of_int b))
    /\ forall output_path audio_only audio_format,
         exists opts,
           build_ydl_opts output_path audio_only audio_format
             (PyStr (PyStr.str_of_int a +:+ "-" +:+ PyStr.str_of_int b))
           = Returns opts
           /\ selection_of_opts opts = Range a b.
Proof.
  intros Hm Hs He Ds De.
  destruct (int_of_str_digits_value s Ds) as (a & k & Ha & Ha0 & Hk).
  destruct (int_of_str_digits_value e De) as (b & l & Hb & Hb0 & Hl).
  exists a, b, k, l. repeat split; try assumption.
  - now apply (get_playlist_config_range preferences s e).
  - intros out ao af. now apply build_ydl_opts_range.
Qed.



(** C2 does not hold as stated: a session may enter a range that ends
    before it starts, or the index 0.  The collector only checks that the
    bounds of a range are digit strings, and checks an index list not at
    all. *)
Lemma collector_selection_invariant_fails :
  (exists opts,
     get_user_input std_urlparse true session_range_5_1
     = Some (prefs_range_5_1, [])
     /\ get_playlist_config prefs_range_5_1 = Returns (PyStr "5-1")
     /\ build_ydl_opts (PyStr "downloads") false (PyStr "mp3") (PyStr "5-1")
        = Returns opts
     /\ selection_of_opts opts = Range 5 1
     /\ ~ selection_invariant (selection_of_opts opts))
  /\ (exists opts,
        get_user_input std_urlparse true session_specific_zero
        = Some (prefs_specific_zero, [])
        /\ get_playlist_config prefs_specific_zero = Returns (PyStr "0")
        /\ build_ydl_opts (PyStr "downloads") false (PyStr "mp3") (PyStr "0")
           = Returns opts
        /\ selection_of_opts opts = Indices "0"
        /\ ~ selection_invariant (selection_of_opts opts))
  /\ ~ collector_selection_invariant std_urlparse.
Proof.
  assert (~ selection_invariant (Range 5 1)) as Hrange.
  { simpl. lia. }
  assert (~ selection_invariant (Indices "0")) as Hzero.
  { simpl. intros H. inversion H as [|tok toks [n [Hn Hpos]] _]; subst.
    vm_compute in Hn. injection Hn as <-. lia. }
  assert (exists opts,
            build_ydl_opts (PyStr "downloads") false (PyStr "mp3")
              (PyStr "5-1") = Returns opts
            /\ selection_of_opts opts = Range 5 1) as [o1 [Hb1 Hs1]].
  { eexists. split; reflexivity. }
  assert (get_user_input std_urlparse true session_range_5_1
          = Some (prefs_range_5_1, [])) as Hg1 by reflexivity.
  assert (get_playlist_config prefs_range_5_1 = Returns (PyStr "5-1"))
    as Hc1 by reflexivity.
  split; [|split].
  - exists o1. repeat split; try assumption. now rewrite Hs1.
  - eexists. repeat split; try reflexivity. exact Hzero.
  - intros Hinv. apply Hrange. rewrite <- Hs1.
    exact (Hinv true _ _ _ _ _ _ _ _ Hg1 Hc1 Hb1).
Qed.

(** C2, amended: for every preferences record a session of plain entries
    yields, [get_playlist_config] returns a descriptor, fixed by the mode.
    In range mode it is the text [a-b] of the two non-negative integers
    that the entered digit strings spell, read by the orchestrator as the
    range from [a] to [b]; their order is whatever the user chose.  In
    index-list mode it is the entered text with the blanks removed, its
    tokens unchecked.  With the full playlist chosen, or for a single
    video, where there is no mode, it is [None]. *)
Theorem collector_selection_descriptor
    (urlparse : string -> py_result ParseResult) (is_playlist_url : bool)
    (script : list user_action) (preferences : Preferences)
    (rest : list user_action) :
  plain_entries script ->
  get_user_input urlparse is_playlist_url script = Some (preferences, rest) ->
  (exists s e a b k l,
     dict_get preferences "playlist_options" = PyStr "Select range"
     /\ preferences !! "start_index" = Some (PyStr s)
     /\ preferences !! "end_index" = Some (PyStr e)
     /\ PyStr.isdigit s = true /\ PyStr.isdigit e = true
     /\ 0 <= a /\ 0 <= b
     /\ s = zeros k +:+ PyStr.str_of_int a
     /\ e = zeros l +:+ PyStr.str_of_int b
     /\ PyStr.int_of_str s = Some a /\ PyStr.int_of_str e = Some b
     /\ get_playlist_config preferences
        = Returns (PyStr (PyStr.str_of_int a +:+ "-" +:+ PyStr.str_of_int b))
     /\ forall output_path audio_only audio_format,
          exists opts,
            build_ydl_opts output_path audio_only audio_format
              (PyStr (PyStr.str_of_int a +:+ "-" +:+ PyStr.str_of_int b))
            = Returns opts
            /\ selection_of_opts opts = Range a b)
  \/ (exists text,
        dict_get preferences "playlist_options" = PyStr "Specific videos"
        /\ preferences !! "video_indices" = Some (PyStr text)
        /\ get_playlist_config preferences
           = Returns (PyStr (PyStr.replace_char " " "" text))
        /\ PyStr.has_char " " (PyStr.replace_char " " "" text) = false)
  \/ ((dict_get preferences "playlist_options" = PyStr "Full playlist"
       \/ dict_get preferences "playlist_options" = PyNone)
      /\ get_playlist_config preferences = Returns PyNone).
Proof.
  intros _ Hget. destruct is_playlist_url.
  - apply get_user_input_playlist in Hget
      as [[Hm [s [e [Ds [De [Hs He]]]]]] | [[Hm [text Hv]] | Hm]].
    + left.
      destruct (range_descriptor preferences s e Hm Hs He Ds De)
        as (a & b & k & l & Ha0 & Hb0 & Hk & Hl & Ha & Hb & Hcfg & Hread).
      exists s, e, a, b, k, l. repeat split; assumption.
    + right; left. exists text. repeat split; try assumption.
      * now apply get_playlist_config_specific.
      * apply replace_char_removes.
    + right; right. split; [now left|].
      apply get_playlist_config_other; rewrite Hm; discriminate.
  - right; right. apply get_user_input_single in Hget.
    split; [now right|].
    apply get_playlist_config_other; rewrite Hget; discriminate.
Qed.

Lemma collector_selection_descriptor_witness :
  plain_entries session_range_5_1
  /\ get_user_input std_urlparse true session_range_5_1
     = Some (prefs_range_5_1, [])
  /\ get_playlist_config prefs_range_5_1 = Returns (PyStr "5-1")
  /\ exists opts,
       build_ydl_opts (PyStr "downloads") false (PyStr "mp3") (PyStr "5-1")
       = Returns opts
       /\ selection_of_opts opts = Range 5 1.
Proof.
  assert (plain_entries session_range_5_1) as Hplain.
  { repeat (constructor;
            [first [exact I | split; [reflexivity | vm_compute; discriminate]]
            |]).
    constructor. }
  assert (get_user_input std_urlparse true session_range_5_1
          = Some (prefs_range_5_1, [])) as Hp by reflexivity.
  split; [exact Hplain|]. split; [exact Hp|].
  assert (dict_get prefs_range_5_1 "playlist_options" = PyStr "Select range")
    as Hmode by reflexivity.
  assert (prefs_range_5_1 !! "start_index" = Some (PyStr "5"))
    as Hstart by reflexivity.
  assert (prefs_range_5_1 !! "end_index" = Some (PyStr "1"))
    as Hend by reflexivity.
  destruct (collector_selection_descriptor std_urlparse true
              session_range_5_1 prefs_range_5_1 [] Hplain Hp)
    as [(s & e & a & b & k & l & H) | [(text & Hm & _) | [Hm _]]].
  - destruct H as (_ & Hs & He & _ & _ & _ & _ & _ & _ & Ha & Hb & Hcfg
                   & Hread).
    rewrite Hstart in Hs. injection Hs as <-.
    rewrite Hend in He. injection He as <-.
    vm_compute in Ha, Hb. injection Ha as <-. injection Hb as <-.
    split; [exact Hcfg|].
    exact (Hread (PyStr "downloads") false (PyStr "mp3")).
  - exfalso. rewrite Hmode in Hm. discriminate Hm.
  - exfalso. rewrite Hmode in Hm. destruct Hm as [Hm | Hm]; discriminate Hm.
Defined.

(** ** The download orchestrator *)

(** The summary logs information records only, then returns, or raises
    [TypeError]. *)
Lemma log_summary_cases info items t :
  exists evs,
    Forall (fun ev => exists msg, ev = EvLogInfo msg) evs
    /\ (log_summary info items t = (Returns tt, (t ++ evs)%list)
        \/ log_summary info items t = (Raises TypeError, (t ++ evs)%list)).
Proof.
  unfold log_summary, log_info, bind, call, raise, ret.
  destruct info as [info|].
  2:{ exists []. split; [constructor|]. right. now rewrite app_nil_r. }
  destruct (info_entries info) as [| |n].
  - destruct (info_duration info) as [| |d].
    all: eexists; rewrite <- ?app_assoc;
      (split; [|(left; reflexivity) || (right; reflexivity)]);
      repeat constructor; eauto.
  - eexists; split; [|right; reflexivity]. repeat constructor; eauto.
  - destruct (truthy items).
    all: eexists; rewrite <- ?app_assoc;
      (split; [|(left; reflexivity) || (right; reflexivity)]);
      repeat constructor; eauto.
Qed.

(** The observations of a trace distribute over its parts. *)
Lemma probes_app (a b : list event) :
  probes (a ++ b)%list = (probes a ++ probes b)%list.
Proof. apply flat_map_app. Qed.

Lemma downloads_app (a b : list event) :
  downloads (a ++ b)%list = (downloads a ++ downloads b)%list.
Proof. apply flat_map_app. Qed.

Lemma logged_errors_app (a b : list event) :
  logged_errors (a ++ b)%list = (logged_errors a ++ logged_errors b)%list.
Proof. apply flat_map_app. Qed.

Lemma inputs_app (a b : list event) :
  inputs (a ++ b)%list = (inputs a ++ inputs b)%list.
Proof. apply flat_map_app. Qed.

(** Information records are neither calls, nor prompts, nor errors. *)
Lemma info_only_silent (evs : list event) :
  Forall (fun ev => exists msg, ev = EvLogInfo msg) evs ->
  probes evs = [] /\ downloads evs = [] /\ logged_errors evs = []
  /\ inputs evs = [].
Proof.
  induction 1 as [|ev evs [msg ->] _ IH]; [now repeat split|].
  simpl. exact IH.
Qed.

(** One step of a run of [download_videos] kept in [H]: the next outcome of
    the outside world is split into returning and raising. *)
Ltac run_step H :=
  match type of H with
  | context [log_summary ?i ?p ?t] =>
      let evs := fresh "evs" in
      let Hevs := fresh "Hevs" in
      let Hs := fresh "Hsummary" in
      destruct (log_summary_cases i p t) as [evs [Hevs [Hs | Hs]]];
      rewrite Hs in H; clear Hs;
      apply info_only_silent in Hevs;
      destruct Hevs as (? & ? & ? & ?)
  | context [match ?x with _ => _ end] =>
      match x with
      | fs_mkdir _ _ => destruct x as [[]|?] eqn:?
      | ydl_open _ _ => destruct x as [[]|?] eqn:?
      | ydl_close _ _ => destruct x as [[]|?] eqn:?
      | ydl_download _ _ _ => destruct x as [[]|?] eqn:?
      | ydl_extract_info _ _ _ => destruct x as [?|?] eqn:?
      | stdin_input _ _ => destruct x as [?|?] eqn:?
      | Path _ => destruct x as [?|?] eqn:?
      | build_ydl_opts _ _ _ _ => destruct x as [?|?] eqn:?
      | is_Exception _ => destruct x eqn:?
      | negb _ => destruct x eqn:?
      end
  end; cbv iota beta in H.

(** All runs of [download_videos], one goal for each course of events. *)
Ltac run_download_videos H :=
  unfold download_videos, probe_confirm_download, with_context,
    try_except_Exception, bind, lift, ret, log_info, log_error, call in H;
  cbv iota beta in H;
  repeat run_step H;
  injection H as <- <-.

(** Computes the observations of the trace of a run. *)
Ltac observe_pass :=
  simpl;
  rewrite ?probes_app, ?downloads_app, ?logged_errors_app, ?inputs_app;
  repeat match goal with
         | E : probes ?evs = [] |- _ => rewrite !E
         | E : downloads ?evs = [] |- _ => rewrite !E
         | E : logged_errors ?evs = [] |- _ => rewrite !E
         | E : inputs ?evs = [] |- _ => rewrite !E
         end.

Ltac observe := repeat (progress observe_pass).

(** Records, for each library operation that raised, that what it raised is
    an [Exception]. *)
Ltac library_fact Hlib E e :=
  lazymatch goal with
  | _ : is_Exception e = true |- _ => fail
  | _ => let H := fresh in
         pose proof Hlib as H; rewrite E in H; simpl in H
  end.

Ltac library_facts Hopen Hprobe Hdl Hclose :=
  repeat match goal with
  | E : ydl_open ?env ?o = Raises ?e |- _ => library_fact (Hopen o) E e
  | E : ydl_extract_info ?env ?o ?u = Raises ?e |- _ =>
      library_fact (Hprobe o u) E e
  | E : ydl_download ?env ?o ?us = Raises ?e |- _ =>
      library_fact (Hdl o us) E e
  | E : ydl_close ?env ?o = Raises ?e |- _ => library_fact (Hclose o) E e
  end.

(** C3: in a world where the library's failures are errors in the sense of
    [except Exception], an error raised by the probe or by the download is
    caught inside [download_videos]: the function returns [False] and an
    error is logged (the very error that was raised, when closing the
    library context succeeds); nothing propagates to the caller.  When the
    probe raises, no download call is made.  This holds for every input on
    which the probe, or the download, is reached. *)
Theorem download_videos_catches_library_errors
    (env : Env) (url output_path quality : pyval) (audio_only : bool)
    (audio_format playlist_items : pyval) (r : py_result bool)
    (t' : list event) :
  library_raises_errors env ->
  download_videos env url output_path quality audio_only audio_format
    playlist_items [] = (r, t') ->
  (forall opts u e,
     In (opts, u) (probes t') ->
     ydl_extract_info env opts u = Raises e ->
     r = Returns false /\ logged_errors t' <> [] /\ downloads t' = []
     /\ (ydl_close env opts = Returns tt -> logged_errors t' = [e]))
  /\ (forall opts us e,
     In (opts, us) (downloads t') ->
     ydl_download env opts us = Raises e ->
     r = Returns false /\ logged_errors t' <> []
     /\ (ydl_close env opts = Returns tt -> logged_errors t' = [e])).
Proof.
  intros (Hopen & Hprobe & Hdl & Hclose) Hrun.
  run_download_videos Hrun.
  all: observe.
  all: library_facts Hopen Hprobe Hdl Hclose.
  all: split; intros ? ? ? Hin Hraise; try contradiction Hin;
    destruct Hin as [Hin | []]; injection Hin as <- <-;
    repeat split; congruence.
Qed.

Lemma download_videos_catches_library_errors_witness :
  (probes (snd (sample_run (probe_failing_env sample_error))) <> []
   /\ fst (sample_run (probe_failing_env sample_error)) = Returns false
   /\ logged_errors (snd (sample_run (probe_failing_env sample_error)))
      = [sample_error]
   /\ downloads (snd (sample_run (probe_failing_env sample_error))) = [])
  /\ (downloads (snd (sample_run (download_failing_env sample_error))) <> []
      /\ fst (sample_run (download_failing_env sample_error)) = Returns false
      /\ logged_errors (snd (sample_run (download_failing_env sample_error)))
         = [sample_error]).
Proof.
  split.
  - assert (library_raises_errors (probe_failing_env sample_error)) as Hlib.
    { repeat split; intros; exact I || reflexivity. }
    destruct (download_videos_catches_library_errors
                (probe_failing_env sample_error)
                (PyStr video_url) (PyStr "downloads") (PyStr "best") false
                (PyStr "mp3") PyNone _ _ Hlib
                (surjective_pairing
                   (sample_run (probe_failing_env sample_error))))
      as [Hprobe _].
    destruct (Hprobe opts_video_downloads (PyStr video_url) sample_error)
      as (Hr & _ & Hd & Hlog);
      [vm_compute; left; reflexivity | reflexivity |].
    split; [vm_compute; discriminate|].
    split; [exact Hr|]. split; [exact (Hlog eq_refl) | exact Hd].
  - assert (library_raises_errors (download_failing_env sample_error))
      as Hlib.
    { repeat split; intros; exact I || reflexivity. }
    destruct (download_videos_catches_library_errors
                (download_failing_env sample_error)
                (PyStr video_url) (PyStr "downloads") (PyStr "best") false
                (PyStr "mp3") PyNone _ _ Hlib
                (surjective_pairing
                   (sample_run (download_failing_env sample_error))))
      as [_ Hdl].
    destruct (Hdl opts_video_downloads [PyStr video_url] sample_error)
      as (Hr & _ & Hlog);
      [vm_compute; left; reflexivity | reflexivity |].
    split; [vm_compute; discriminate|].
    split; [exact Hr | exact (Hlog eq_refl)].
Defined.

(** C5: in a world where the library's failures are errors, once the probe
    has returned, an answer to the confirmation other than [y] or [Y] makes
    [download_videos] return [False] with no download call in the trace;
    and a download call in the trace means that the confirmation was
    answered in the affirmative, once, before the one download call. *)
Theorem download_videos_confirmation_gate
    (env : Env) (url output_path quality : pyval) (audio_only : bool)
    (audio_format playlist_items : pyval) (r : py_result bool)
    (t' : list event) :
  library_raises_errors env ->
  download_videos env url output_path quality audio_only audio_format
    playlist_items [] = (r, t') ->
  (forall opts u info answer,
     In (opts, u) (probes t') ->
     ydl_extract_info env opts u = Returns info ->
     stdin_input env confirm_prompt = Returns answer ->
     affirmative answer = false ->
     r = Returns false /\ downloads t' = [])
  /\ (downloads t' <> [] ->
      exists opts answer,
        stdin_input env confirm_prompt = Returns answer
        /\ affirmative answer = true
        /\ inputs t' = [confirm_prompt]
        /\ downloads t' = [(opts, [url])]).
Proof.
  intros (Hopen & Hprobe & Hdl & Hclose) Hrun.
  unfold affirmative.
  run_download_videos Hrun.
  all: observe.
  all: library_facts Hopen Hprobe Hdl Hclose.
  all: repeat match goal with
              | E : negb _ = true |- _ => apply negb_true_iff in E
              | E : negb _ = false |- _ => apply negb_false_iff in E
              end.
  all: split.
  all: try (intros ? ? ? ? Hin Hinfo Hans Hneg; try contradiction Hin;
            destruct Hin as [Hin | []]; injection Hin as <- <-;
            try match goal with
                | E : is_Exception TypeError = false |- _ => discriminate E
                end;
            split; congruence).
  all: intros Hne; try (now contradiction Hne).
  all: eexists _, _;
    split; [reflexivity|]; split; [eassumption|]; split; reflexivity.
Qed.

Lemma download_videos_confirmation_gate_witness :
  probes (snd (sample_run (cooperative_env "no"))) <> []
  /\ affirmative "no" = false
  /\ fst (sample_run (cooperative_env "no")) = Returns false
  /\ downloads (snd (sample_run (cooperative_env "no"))) = [].
Proof.
  assert (library_raises_errors (cooperative_env "no")) as Hlib.
  { repeat split; intros; exact I. }
  destruct (download_videos_confirmation_gate (cooperative_env "no")
              (PyStr video_url) (PyStr "downloads") (PyStr "best") false
              (PyStr "mp3") PyNone _ _ Hlib
              (surjective_pairing (sample_run (cooperative_env "no"))))
    as [Hgate _].
  destruct (Hgate opts_video_downloads (PyStr video_url) (Some sample_info)
              "no") as [Hr Hd];
    [vm_compute; left; reflexivity | reflexivity | reflexivity
    | reflexivity |].
  split; [vm_compute; discriminate|].
  split; [reflexivity|]. split; [exact Hr | exact Hd].
Defined.

(** What happens before the [try] block is entered escapes to the caller:
    a failing [Path], [mkdir] or configuration step raises out of
    [download_videos], with nothing logged and no probe. *)
Lemma download_videos_setup_raises
    (env : Env) (url output_path quality : pyval) (audio_only : bool)
    (audio_format playlist_items : pyval) (e : exn) (t : list event) :
  build_ydl_opts output_path audio_only audio_format playlist_items
  = Raises e ->
  (exists e' t',
     download_videos env url output_path quality audio_only audio_format
       playlist_items t = (Raises e', t')
     /\ logged_errors t' = logged_errors t /\ probes t' = probes t)
  /\ (forall path,
        Path output_path = Returns path ->
        fs_mkdir env path = Returns tt ->
        download_videos env url output_path quality audio_only audio_format
          playlist_items t = (Raises e, (t ++ [EvMkdir path])%list)).
Proof.
  intros Hbuild.
  unfold download_videos, bind, lift, call. rewrite Hbuild.
  destruct (Path output_path) as [path|e1].
  - destruct (fs_mkdir env path) as [[]|e2] eqn:Hmk; split.
    + eexists _, _. split; [reflexivity|].
      now rewrite logged_errors_app, probes_app, !app_nil_r.
    + intros p Hp _. now injection Hp as <-.
    + eexists _, _. split; [reflexivity|].
      now rewrite logged_errors_app, probes_app, !app_nil_r.
    + intros p Hp Hm. injection Hp as <-. rewrite Hmk in Hm. discriminate Hm.
  - split.
    + eexists _, _. repeat split.
    + intros p Hp. discriminate Hp.
Qed.

(** The lines of [main] between the prompts and the call, for a session
    that asks for video with audio. *)
Lemma main_attempt_video
    (env : Env) (is_playlist_url : bool) (preferences : Preferences)
    (url output_path quality playlist_items : pyval) (t : list event) :
  dict_getitem preferences "download_type"
  = Returns (PyStr "Video with Audio") ->
  dict_getitem preferences "quality" = Returns quality ->
  (if is_playlist_url && truthy (dict_get preferences "playlist_options")
   then get_playlist_config preferences
   else Returns PyNone) = Returns playlist_items ->
  dict_getitem preferences "url" = Returns url ->
  dict_getitem preferences "output_path" = Returns output_path ->
  main_attempt env is_playlist_url preferences t
  = download_videos env url output_path quality false (PyStr "mp3")
      playlist_items t.
Proof.
  intros Htype Hq Hitems Hurl Hout.
  unfold main_attempt, bind, lift.
  rewrite Htype. simpl. rewrite Hq, Hitems, Hurl, Hout. reflexivity.
Qed.

Lemma contains_nonempty (needle : ascii) (s : string) :
  PyStr.contains (String needle "") s = true -> truthy (PyStr s) = true.
Proof. destruct s; [discriminate | reflexivity]. Qed.

(** C9: a playlist selection with a hyphen in it is read as a range:
    [download_videos] splits it at the hyphens and converts the two parts
    with [int].  This happens before the [try] block, so a failing
    conversion raises out of [download_videos].  A session can produce such
    a selection: the index list [1-3,5] of [session_specific_hyphen] makes
    the attempt raise, whatever the outside world does. *)
Theorem download_videos_hyphen_escapes :
  (forall output_path audio_only audio_format items,
     PyStr.contains "-" items = true ->
     exists base,
       build_ydl_opts output_path audio_only audio_format PyNone
       = Returns base
       /\ build_ydl_opts output_path audio_only audio_format (PyStr items)
          = bind_result (unpack_int_pair (PyStr.split "-" items))
              (fun se =>
                 Returns (set_playlist_range (fst se) (snd se) base)))
  /\ (forall env url output_path quality audio_only audio_format
             playlist_items e t,
        build_ydl_opts output_path audio_only audio_format playlist_items
        = Raises e ->
        (exists e' t',
           download_videos env url output_path quality audio_only
             audio_format playlist_items t = (Raises e', t')
           /\ logged_errors t' = logged_errors t /\ probes t' = probes t)
        /\ (forall path,
              Path output_path = Returns path ->
              fs_mkdir env path = Returns tt ->
              download_videos env url output_path quality audio_only
                audio_format playlist_items t
              = (Raises e, (t ++ [EvMkdir path])%list)))
  /\ (get_user_input std_urlparse true session_specific_hyphen
      = Some (prefs_specific_hyphen, [])
      /\ get_playlist_config prefs_specific_hyphen = Returns (PyStr "1-3,5")
      /\ forall env,
           main_attempt env true prefs_specific_hyphen []
           = download_videos env (PyStr playlist_url) (PyStr "downloads")
               (PyStr "best") false (PyStr "mp3") (PyStr "1-3,5") []
           /\ exists e t',
                download_videos env (PyStr playlist_url) (PyStr "downloads")
                  (PyStr "best") false (PyStr "mp3") (PyStr "1-3,5") []
                = (Raises e, t')
                /\ logged_errors t' = [] /\ probes t' = []
                /\ (fs_mkdir env "downloads" = Returns tt
                    -> e = ValueError)).
Proof.
  split; [|split].
  - intros out ao af items Hc. eexists. split; [reflexivity|].
    unfold build_ydl_opts.
    rewrite (contains_nonempty _ _ Hc), Hc. reflexivity.
  - intros. now apply download_videos_setup_raises.
  - split; [reflexivity|]. split; [reflexivity|].
    intros env. split.
    { now apply main_attempt_video. }
    assert (build_ydl_opts (PyStr "downloads") false (PyStr "mp3")
              (PyStr "1-3,5") = Raises ValueError) as Hbuild by reflexivity.
    destruct (download_videos_setup_raises env (PyStr playlist_url)
                (PyStr "downloads") (PyStr "best") false (PyStr "mp3")
                (PyStr "1-3,5") ValueError [] Hbuild)
      as [[e' [t' [Hrun [Hlog Hprobes]]]] Hok].
    exists e', t'. repeat split; try assumption.
    intros Hmk. specialize (Hok "downloads" eq_refl Hmk).
    rewrite Hok in Hrun. now injection Hrun as <- _.
Qed.

Lemma download_videos_hyphen_escapes_witness :
  (exists opts,
     build_ydl_opts (PyStr "downloads") false (PyStr "mp3") (PyStr "2-4")
     = Returns opts
     /\ selection_of_opts opts = Range 2 4)
  /\ build_ydl_opts (PyStr "downloads") false (PyStr "mp3") (PyStr "1-3,5")
     = Raises ValueError
  /\ download_videos (cooperative_env "y") (PyStr playlist_url)
       (PyStr "downloads") (PyStr "best") false (PyStr "mp3")
       (PyStr "1-3,5") []
     = (Raises ValueError, [EvMkdir "downloads"]).
Proof.
  assert (build_ydl_opts (PyStr "downloads") false (PyStr "mp3")
            (PyStr "1-3,5") = Raises ValueError) as Hbuild by reflexivity.
  split; [|split; [exact Hbuild|]].
  - destruct (proj1 download_videos_hyphen_escapes (PyStr "downloads") false
                (PyStr "mp3") "2-4" eq_refl) as [base [Hbase Hrange]].
    eexists. split; [rewrite Hrange; reflexivity|].
    injection Hbase as <-. reflexivity.
  - exact (proj2 (proj1 (proj2 download_videos_hyphen_escapes)
                    (cooperative_env "y") (PyStr playlist_url)
                    (PyStr "downloads") (PyStr "best") false (PyStr "mp3")
                    (PyStr "1-3,5") ValueError [] Hbuild)
             "downloads" eq_refl eq_refl).
Defined.

(** ** The end-to-end attempt *)

(** The [quality] argument of [download_videos] has no effect. *)
Lemma download_videos_quality_unused
    (env : Env) (url output_path quality quality' : pyval)
    (audio_only : bool) (audio_format playlist_items : pyval) :
  download_videos env url output_path quality audio_only audio_format
    playlist_items
  = download_videos env url output_path quality' audio_only audio_format
      playlist_items.
Proof. reflexivity. Qed.

(** The format expression of the configuration depends on the media mode
    alone. *)
Lemma build_ydl_opts_format
    (output_path audio_format playlist_items : pyval) (audio_only : bool)
    (opts : ydl_opts) :
  build_ydl_opts output_path audio_only audio_format playlist_items
  = Returns opts ->
  format opts = if audio_only then "bestaudio/best"
                else "bestvideo+bestaudio/best".
Proof.
  unfold build_ydl_opts. destruct playlist_items as [|items].
  - intros H. now injection H as <-.
  - destruct (truthy (PyStr items)).
    + destruct (PyStr.contains "-" items).
      * destruct (unpack_int_pair (PyStr.split "-" items)) as [[a b]|e];
          simpl; intros H; [now injection H as <- | discriminate H].
      * intros H. now injection H as <-.
    + intros H. now injection H as <-.
Qed.

(** C1, on the code: the session [session_video_720p] asks for video with
    audio at 720p for a URL without a playlist marker, and the user confirms.
    The download is called once, after the one confirmation; but the format
    expression of its configuration is [bestvideo+bestaudio/best], with no
    height bound, and not the expression [get_format_string] builds for
    720p. *)
Theorem download_videos_720p_format_unbounded :
  is_playlist video_url = false
  /\ get_user_input std_urlparse false session_video_720p
     = Some (prefs_video_720p, [])
  /\ prefs_video_720p !! "download_type" = Some (PyStr "Video with Audio")
  /\ prefs_video_720p !! "quality" = Some (PyStr "720p")
  /\ main_attempt (cooperative_env "y") false prefs_video_720p []
     = (Returns true,
        [ EvMkdir "downloads";
          EvLogInfo ("Starting download from: " +:+ video_url);
          EvOpen opts_video_downloads;
          EvExtractInfo opts_video_downloads (PyStr video_url);
          EvLogInfo "Title: Clip";
          EvLogInfo "Duration: 2:05";
          EvInput confirm_prompt;
          EvDownload opts_video_downloads [PyStr video_url];
          EvClose opts_video_downloads;
          EvLogInfo "Download completed successfully!" ])
  /\ format opts_video_downloads = "bestvideo+bestaudio/best"
  /\ PyStr.contains "height<=" (format opts_video_downloads) = false
  /\ get_format_string "720p"
     = "bestvideo[height<=720]+bestaudio/best[height<=720]"
  /\ format opts_video_downloads <> get_format_string "720p".
Proof.
  repeat split; try reflexivity. discriminate.
Qed.

(** * Further properties of the code *)

(** ** What a session of [get_user_input] leaves behind *)

Section CollectorShape.

Variable urlparse : string -> py_result ParseResult.

Lemma base_answers answers script a r :
  Inquirer.prompt (base_questions urlparse) answers script = Some (a, r) ->
  exists url out,
    validate_url urlparse url = Returns true
    /\ a = <["output_path" := PyStr out]> (<["url" := PyStr url]> answers).
Proof.
  unfold base_questions.
  cbn [Inquirer.prompt Inquirer.render Inquirer.q_ignore Inquirer.q_kind
       Inquirer.q_name Inquirer.q_default Inquirer.q_validate never_ignored].
  intros H. step_text H. step_text H. injection H as <- <-.
  eexists _, _. split; [|reflexivity].
  unfold url_validator in Etext.
  destruct (validate_url urlparse s) as [[]|]; congruence.
Qed.

Lemma media_answers answers script a r :
  Inquirer.prompt media_questions answers script = Some (a, r) ->
  (exists q, In q quality_tiers
     /\ a = <["audio_format" := PyNone]>
              (<["quality" := PyStr q]>
                 (<["download_type" := PyStr "Video with Audio"]> answers)))
  \/ (exists f, In f ["mp3"; "wav"; "m4a"]
        /\ a = <["audio_format" := PyStr f]>
                 (<["quality" := PyNone]>
                    (<["download_type" := PyStr "Audio Only"]> answers))).
Proof.
  unfold media_questions.
  cbn [Inquirer.prompt Inquirer.render Inquirer.q_ignore Inquirer.q_kind
       Inquirer.q_name Inquirer.q_default Inquirer.q_validate never_ignored].
  intros H.
  destruct script as [|[?|i] script]; try discriminate H.
  destruct i as [|[|i]]; cbn [Inquirer.ask_list lookup list_lookup] in H;
    try discriminate H.
  all: unfold Inquirer.render in H;
    cbn [Inquirer.q_ignore Inquirer.q_kind Inquirer.q_name
         Inquirer.q_default Inquirer.q_validate] in H;
    eval_ignore H.
  - destruct script as [|[?|i] script]; try discriminate H.
    unfold quality_tiers in H.
    do 5 (destruct i as [|i];
          [ cbn [Inquirer.ask_list lookup list_lookup] in H; eval_ignore H;
            injection H as <- <-; left; eexists; split; [|reflexivity];
            simpl; tauto |]).
    discriminate H.
  - destruct script as [|[?|i] script]; try discriminate H.
    do 3 (destruct i as [|i];
          [ cbn [Inquirer.ask_list lookup list_lookup] in H;
            injection H as <- <-; right; eexists; split; [|reflexivity];
            simpl; tauto |]).
    discriminate H.
Qed.

Lemma playlist_answers_exact answers script a r :
  Inquirer.prompt playlist_questions answers script = Some (a, r) ->
  exists mode start end_ indices,
    a = <["video_indices" := indices]>
          (<["end_index" := end_]>
             (<["start_index" := start]>
                (<["playlist_options" := PyStr mode]> answers)))
    /\ ((mode = "Full playlist" /\ start = PyNone /\ end_ = PyNone
         /\ indices = PyNone)
        \/ (mode = "Select range" /\ indices = PyNone
            /\ exists s e, start = PyStr s /\ end_ = PyStr e
                 /\ PyStr.isdigit s = true /\ PyStr.isdigit e = true)
        \/ (mode = "Specific videos" /\ start = PyNone /\ end_ = PyNone
            /\ exists text, indices = PyStr text)).
Proof.
  unfold playlist_questions.
  cbn [Inquirer.prompt Inquirer.render Inquirer.q_ignore Inquirer.q_kind
       Inquirer.q_name Inquirer.q_default Inquirer.q_validate never_ignored].
  intros H.
  destruct script as [|[?|i] script]; try discriminate H.
  destruct i as [|[|[|i]]]; cbn [Inquirer.ask_list lookup list_lookup] in H;
    try discriminate H.
  all: unfold Inquirer.render in H;
    cbn [Inquirer.q_ignore Inquirer.q_kind Inquirer.q_name
         Inquirer.q_default Inquirer.q_validate] in H;
    eval_ignore H.
  - injection H as <- <-. eexists _, _, _, _. split; [reflexivity|].
    left. tauto.
  - step_text H. step_text H. injection H as <- <-.
    eexists _, _, _, _. split; [reflexivity|].
    right; left. repeat split. eexists _, _. repeat split; assumption.
  - step_text H. injection H as <- <-.
    eexists _, _, _, _. split; [reflexivity|].
    right; right. repeat split. eexists. reflexivity.
Qed.

(** The answers of a completed session, for a playlist and for a single
    video: the dict, entry by entry. *)
Lemma get_user_input_shape is_playlist_url script prefs rest :
  get_user_input urlparse is_playlist_url script = Some (prefs, rest) ->
  exists url out download_type quality audio_format,
    validate_url urlparse url = Returns true
    /\ ((download_type = PyStr "Video with Audio"
         /\ (exists q, In q quality_tiers /\ quality = PyStr q)
         /\ audio_format = PyNone)
        \/ (download_type = PyStr "Audio Only" /\ quality = PyNone
            /\ exists f, In f ["mp3"; "wav"; "m4a"]
                 /\ audio_format = PyStr f))
    /\ if is_playlist_url then
         exists mode start end_ indices,
           prefs = playlist_session_answers (PyStr url) (PyStr out)
                     (PyStr mode) start end_ indices download_type quality
                     audio_format
           /\ ((mode = "Full playlist" /\ start = PyNone /\ end_ = PyNone
                /\ indices = PyNone)
               \/ (mode = "Select range" /\ indices = PyNone
                   /\ exists s e, start = PyStr s /\ end_ = PyStr e
                        /\ PyStr.isdigit s = true
                        /\ PyStr.isdigit e = true)
               \/ (mode = "Specific videos" /\ start = PyNone
                   /\ end_ = PyNone /\ exists text, indices = PyStr text))
       else
         prefs = video_session_answers (PyStr url) (PyStr out) download_type
                   quality audio_format.
Proof.
  unfold get_user_input, questions. rewrite prompt_app.
  destruct (Inquirer.prompt (base_questions urlparse) ∅ script)
    as [[a1 r1]|] eqn:Hbase; cbv iota; [|discriminate].
  apply base_answers in Hbase as [url [out [Hurl ->]]].
  destruct is_playlist_url.
  - rewrite prompt_app.
    destruct (Inquirer.prompt playlist_questions _ r1)
      as [[a2 r2]|] eqn:Hpl; cbv iota; [|discriminate].
    apply playlist_answers_exact in Hpl
      as [mode [start [end_ [indices [-> Hmode]]]]].
    intros Hmedia.
    apply media_answers in Hmedia as [[q [Hq ->]] | [f [Hf ->]]].
    + exists url, out, (PyStr "Video with Audio"), (PyStr q), PyNone.
      split; [exact Hurl|]. split; [left; eauto|].
      exists mode, start, end_, indices. split; [reflexivity | exact Hmode].
    + exists url, out, (PyStr "Audio Only"), PyNone, (PyStr f).
      split; [exact Hurl|]. split; [right; eauto|].
      exists mode, start, end_, indices. split; [reflexivity | exact Hmode].
  - simpl app. intros Hmedia.
    apply media_answers in Hmedia as [[q [Hq ->]] | [f [Hf ->]]].
    + exists url, out, (PyStr "Video with Audio"), (PyStr q), PyNone.
      split; [exact Hurl|]. split; [left; eauto|]. reflexivity.
    + exists url, out, (PyStr "Audio Only"), PyNone, (PyStr f).
      split; [exact Hurl|]. split; [right; eauto|]. reflexivity.
Qed.

End CollectorShape.

Ltac chain_lookup :=
  unfold playlist_session_answers, video_session_answers, dict_get,
    dict_getitem;
  repeat (rewrite lookup_insert_ne by discriminate);
  first [ rewrite lookup_insert_eq | rewrite lookup_empty ]; reflexivity.

(** X1: the preferences of a completed session hold, under [url], a text
    that passed [validate_url] at the prompt, and under [output_path] a
    text: neither is ever missing or [None]. *)
Theorem get_user_input_url_validated
    (urlparse : string -> py_result ParseResult) (is_playlist_url : bool)
    (script : list user_action) (preferences : Preferences)
    (rest : list user_action) :
  get_user_input urlparse is_playlist_url script = Some (preferences, rest) ->
  exists url out,
    preferences !! "url" = Some (PyStr url)
    /\ validate_url urlparse url = Returns true
    /\ preferences !! "output_path" = Some (PyStr out).
Proof.
  intros H.
  apply get_user_input_shape in H
    as (url & out & dt & q & af & Hurl & _ & Hshape).
  exists url, out. split; [|split; [exact Hurl|]].
  - destruct is_playlist_url.
    + destruct Hshape as (mode & st & en & ix & -> & _). chain_lookup.
    + subst. chain_lookup.
  - destruct is_playlist_url.
    + destruct Hshape as (mode & st & en & ix & -> & _). chain_lookup.
    + subst. chain_lookup.
Qed.

Lemma get_user_input_url_validated_witness :
  get_user_input std_urlparse true session_range_5_1
  = Some (prefs_range_5_1, [])
  /\ exists url out,
       prefs_range_5_1 !! "url" = Some (PyStr url)
       /\ validate_url std_urlparse url = Returns true
       /\ prefs_range_5_1 !! "output_path" = Some (PyStr out).
Proof.
  assert (get_user_input std_urlparse true session_range_5_1
          = Some (prefs_range_5_1, [])) as H by reflexivity.
  split; [exact H|].
  exact (get_user_input_url_validated std_urlparse true session_range_5_1
           prefs_range_5_1 [] H).
Defined.

(** X2: a completed session chose exactly one medium.  Either the download
    type is [Video with Audio], the quality is one of the five tiers on
    offer and the audio format is [None] (its prompt was skipped); or the
    download type is [Audio Only], the quality is [None] and the audio
    format is one of mp3, wav and m4a. *)
Theorem get_user_input_media_exclusive
    (urlparse : string -> py_result ParseResult) (is_playlist_url : bool)
    (script : list user_action) (preferences : Preferences)
    (rest : list user_action) :
  get_user_input urlparse is_playlist_url script = Some (preferences, rest) ->
  (preferences !! "download_type" = Some (PyStr "Video with Audio")
   /\ (exists q, In q quality_tiers
         /\ preferences !! "quality" = Some (PyStr q))
   /\ preferences !! "audio_format" = Some PyNone)
  \/ (preferences !! "download_type" = Some (PyStr "Audio Only")
      /\ preferences !! "quality" = Some PyNone
      /\ exists f, In f ["mp3"; "wav"; "m4a"]
           /\ preferences !! "audio_format" = Some (PyStr f)).
Proof.
  intros H.
  apply get_user_input_shape in H
    as (url & out & dt & q & af & _ & Hmedia & Hshape).
  assert (preferences !! "download_type" = Some dt
          /\ preferences !! "quality" = Some q
          /\ preferences !! "audio_format" = Some af) as (Hdt & Hq & Haf).
  { destruct is_playlist_url.
    - destruct Hshape as (mode & st & en & ix & -> & _).
      repeat split; chain_lookup.
    - subst. repeat split; chain_lookup. }
  rewrite Hdt, Hq, Haf.
  destruct Hmedia as [(-> & (x & Hx & ->) & ->) | (-> & -> & (f & Hf & ->))].
  - left. eauto.
  - right. eauto.
Qed.

Lemma get_user_input_media_exclusive_witness :
  get_user_input std_urlparse false session_video_720p
  = Some (prefs_video_720p, [])
  /\ ((prefs_video_720p !! "download_type"
       = Some (PyStr "Video with Audio")
       /\ (exists q, In q quality_tiers
             /\ prefs_video_720p !! "quality" = Some (PyStr q))
       /\ prefs_video_720p !! "audio_format" = Some PyNone)
      \/ (prefs_video_720p !! "download_type" = Some (PyStr "Audio Only")
          /\ prefs_video_720p !! "quality" = Some PyNone
          /\ exists f, In f ["mp3"; "wav"; "m4a"]
               /\ prefs_video_720p !! "audio_format" = Some (PyStr f))).
Proof.
  assert (get_user_input std_urlparse false session_video_720p
          = Some (prefs_video_720p, [])) as H by reflexivity.
  split; [exact H|].
  exact (get_user_input_media_exclusive std_urlparse false
           session_video_720p prefs_video_720p [] H).
Defined.

(** X3: the playlist entries of a completed session of ASCII entries.  For
    a playlist URL the mode is one of the three on offer; the full playlist
    leaves the three index entries [None]; the range mode leaves two digit
    strings and no index list; the explicit mode leaves an index text,
    which no validator checked, and no bounds.  For a single video none of
    the four keys is in the dict at all. *)
Theorem get_user_input_playlist_fields
    (urlparse : string -> py_result ParseResult) (is_playlist_url : bool)
    (script : list user_action) (preferences : Preferences)
    (rest : list user_action) :
  ascii_entries script ->
  get_user_input urlparse is_playlist_url script = Some (preferences, rest) ->
  if is_playlist_url then
    (preferences !! "playlist_options" = Some (PyStr "Full playlist")
     /\ preferences !! "start_index" = Some PyNone
     /\ preferences !! "end_index" = Some PyNone
     /\ preferences !! "video_indices" = Some PyNone)
    \/ (preferences !! "playlist_options" = Some (PyStr "Select range")
        /\ (exists s, PyStr.isdigit s = true
              /\ preferences !! "start_index" = Some (PyStr s))
        /\ (exists e, PyStr.isdigit e = true
              /\ preferences !! "end_index" = Some (PyStr e))
        /\ preferences !! "video_indices" = Some PyNone)
    \/ (preferences !! "playlist_options" = Some (PyStr "Specific videos")
        /\ preferences !! "start_index" = Some PyNone
        /\ preferences !! "end_index" = Some PyNone
        /\ exists text, preferences !! "video_indices" = Some (PyStr text))
  else
    preferences !! "playlist_options" = None
    /\ preferences !! "start_index" = None
    /\ preferences !! "end_index" = None
    /\ preferences !! "video_indices" = None.
Proof.
  intros _ H.
  apply get_user_input_shape in H
    as (url & out & dt & q & af & _ & _ & Hshape).
  destruct is_playlist_url.
  - destruct Hshape as (mode & st & en & ix & -> & Hmode).
    destruct Hmode as [(-> & -> & -> & ->)
                      | [(-> & -> & s & e & -> & -> & Hs & He)
                        | (-> & -> & -> & text & ->)]].
    + left. repeat split; chain_lookup.
    + right; left. split; [chain_lookup|].
      split; [exists s; split; [exact Hs | chain_lookup]|].
      split; [exists e; split; [exact He | chain_lookup]|]. chain_lookup.
    + right; right. split; [chain_lookup|]. split; [chain_lookup|].
      split; [chain_lookup|]. exists text. chain_lookup.
  - subst. repeat split; chain_lookup.
Qed.

Lemma get_user_input_playlist_fields_witness :
  ascii_entries session_video_720p
  /\ get_user_input std_urlparse false session_video_720p
     = Some (prefs_video_720p, [])
  /\ prefs_video_720p !! "playlist_options" = None
  /\ prefs_video_720p !! "start_index" = None
  /\ prefs_video_720p !! "end_index" = None
  /\ prefs_video_720p !! "video_indices" = None.
Proof.
  assert (ascii_entries session_video_720p) as Hascii.
  { repeat constructor. }
  assert (get_user_input std_urlparse false session_video_720p
          = Some (prefs_video_720p, [])) as H by reflexivity.
  split; [exact Hascii|]. split; [exact H|].
  exact (get_user_input_playlist_fields std_urlparse false
           session_video_720p prefs_video_720p [] Hascii H).
Defined.

(** X4: the keys of the preferences of a completed session are fixed by the
    kind of URL alone: nine keys for a playlist, five for a single video,
    whatever was answered.  A prompt that was skipped leaves its key in the
    dict (with [None]); a prompt that was not asked leaves none. *)
Theorem get_user_input_keys
    (urlparse : string -> py_result ParseResult) (is_playlist_url : bool)
    (script : list user_action) (preferences : Preferences)
    (rest : list user_action) :
  get_user_input urlparse is_playlist_url script = Some (preferences, rest) ->
  dom preferences
  = if is_playlist_url then
      list_to_set ["url"; "output_path"; "playlist_options"; "start_index";
                   "end_index"; "video_indices"; "download_type"; "quality";
                   "audio_format"]
    else
      list_to_set ["url"; "output_path"; "download_type"; "quality";
                   "audio_format"].
Proof.
  intros H.
  apply get_user_input_shape in H
    as (url & out & dt & q & af & _ & _ & Hshape).
  destruct is_playlist_url.
  - destruct Hshape as (mode & st & en & ix & -> & _).
    unfold playlist_session_answers. rewrite !dom_insert_L, dom_empty_L.
    simpl. set_solver.
  - subst. unfold video_session_answers.
    rewrite !dom_insert_L, dom_empty_L. simpl. set_solver.
Qed.

Lemma get_user_input_keys_witness :
  get_user_input std_urlparse false session_video_720p
  = Some (prefs_video_720p, [])
  /\ dom prefs_video_720p
     = list_to_set ["url"; "output_path"; "download_type"; "quality";
                    "audio_format"].
Proof.
  assert (get_user_input std_urlparse false session_video_720p
          = Some (prefs_video_720p, [])) as H by reflexivity.
  split; [exact H|].
  exact (get_user_input_keys std_urlparse false session_video_720p
           prefs_video_720p [] H).
Defined.

(** X5: URLs that [validate_url] rejects leave no mark on a session.  The
    URL prompt is asked again after each of them, and the session goes on
    as if they had never been typed: same preferences, same entries left
    over. *)
Theorem get_user_input_reprompts
    (urlparse : string -> py_result ParseResult) (is_playlist_url : bool)
    (rejected : list string) (script : list user_action) :
  Forall (fun text => validate_url urlparse text = Returns false) rejected ->
  get_user_input urlparse is_playlist_url (map Typed rejected ++ script)%list
  = get_user_input urlparse is_playlist_url script.
Proof.
  induction 1 as [|text rejected Htext _ IH]; [reflexivity|].
  rewrite <- IH. clear IH.
  unfold get_user_input, questions, base_questions.
  cbn [map app Inquirer.prompt Inquirer.render Inquirer.q_ignore
       Inquirer.q_kind Inquirer.q_name Inquirer.q_default
       Inquirer.q_validate never_ignored Inquirer.ask_text].
  unfold url_validator at 1. rewrite Htext. reflexivity.
Qed.

Lemma get_user_input_reprompts_witness :
  Forall (fun text => validate_url std_urlparse text = Returns false)
    ["not a url"; "https://example.com/watch?v=abc"]
  /\ get_user_input std_urlparse false
       (map Typed ["not a url"; "https://example.com/watch?v=abc"]
        ++ session_video_720p)%list
     = get_user_input std_urlparse false session_video_720p.
Proof.
  assert (Forall (fun text => validate_url std_urlparse text = Returns false)
            ["not a url"; "https://example.com/watch?v=abc"]) as H.
  { repeat (constructor; [vm_compute; reflexivity|]). constructor. }
  split; [exact H|].
  exact (get_user_input_reprompts std_urlparse false _ session_video_720p H).
Defined.


(** ** Errors and round trips of the selection resolver *)

(** X6: what [get_playlist_config] raises on preferences that lack what
    the mode needs.  In the range mode a missing index is a [KeyError] of
    its key, an index that is [None] a [TypeError], and an index that is
    no integer literal a [ValueError]; the start index is read before the
    end index.  In the explicit mode a missing index list is a [KeyError]
    and a [None] one an [AttributeError]. *)
Theorem get_playlist_config_errors (preferences : Preferences) :
  (dict_get preferences "playlist_options" = PyStr "Select range" ->
   (preferences !! "start_index" = None ->
    get_playlist_config preferences = Raises (KeyError "start_index"))
   /\ (preferences !! "start_index" = Some PyNone ->
       get_playlist_config preferences = Raises TypeError)
   /\ (forall s,
         preferences !! "start_index" = Some (PyStr s) ->
         plain_text s -> PyStr.int_of_str s = None ->
         get_playlist_config preferences = Raises ValueError)
   /\ (forall s a,
         preferences !! "start_index" = Some (PyStr s) ->
         plain_text s -> PyStr.int_of_str s = Some a ->
         (preferences !! "end_index" = None ->
          get_playlist_config preferences = Raises (KeyError "end_index"))
         /\ (preferences !! "end_index" = Some PyNone ->
             get_playlist_config preferences = Raises TypeError)
         /\ (forall e,
               preferences !! "end_index" = Some (PyStr e) ->
               plain_text e -> PyStr.int_of_str e = None ->
               get_playlist_config preferences = Raises ValueError)))
  /\ (dict_get preferences "playlist_options" = PyStr "Specific videos" ->
      (preferences !! "video_indices" = None ->
       get_playlist_config preferences = Raises (KeyError "video_indices"))
      /\ (preferences !! "video_indices" = Some PyNone ->
          get_playlist_config preferences = Raises AttributeError)).
Proof.
  unfold get_playlist_config, dict_getitem, py_int.
  split; intros Hm; rewrite Hm; simpl.
  - split; [intros H; now rewrite H|].
    split; [intros H; now rewrite H|].
    split; [intros s H _ Hi; rewrite H; simpl; now rewrite Hi|].
    intros s a H _ Hi. rewrite H. simpl. rewrite Hi. simpl.
    split; [intros He; now rewrite He|].
    split; [intros He; now rewrite He|].
    intros e He _ Hie. rewrite He. simpl. now rewrite Hie.
  - split; intros H; now rewrite H.
Qed.

Lemma get_playlist_config_errors_witness :
  dict_get prefs_range_unfilled "playlist_options" = PyStr "Select range"
  /\ prefs_range_unfilled !! "start_index" = None
  /\ get_playlist_config prefs_range_unfilled
     = Raises (KeyError "start_index").
Proof.
  assert (dict_get prefs_range_unfilled "playlist_options"
          = PyStr "Select range") as Hmode by reflexivity.
  assert (prefs_range_unfilled !! "start_index" = None)
    as Hstart by reflexivity.
  split; [exact Hmode|]. split; [exact Hstart|].
  exact (proj1 (proj1 (get_playlist_config_errors prefs_range_unfilled)
                  Hmode) Hstart).
Defined.

Section ConfigFacts.

Lemma split_parts_no_sep (c : ascii) (s : string) :
  Forall (fun part => PyStr.has_char c part = false) (PyStr.split c s).
Proof.
  induction s as [|d s IH]; simpl; [repeat constructor|].
  destruct (Ascii.eqb c d) eqn:E; [constructor; [reflexivity | exact IH]|].
  destruct (PyStr.split c s) as [|w ws];
    [repeat constructor; simpl; now rewrite E|].
  inversion IH as [|? ? Hw Hws]; subst.
  constructor; [simpl; now rewrite E, Hw | exact Hws].
Qed.

Lemma lstrip_has_char (c : ascii) (s : string) :
  PyStr.has_char c s = false -> PyStr.has_char c (PyStr.lstrip s) = false.
Proof.
  induction s as [|d s IH]; simpl; [reflexivity|].
  intros H. destruct (PyStr.is_space d); [|exact H].
  apply orb_false_iff in H as [_ H]. now apply IH.
Qed.

Lemma rstrip_has_char (c : ascii) (s : string) :
  PyStr.has_char c s = false -> PyStr.has_char c (PyStr.rstrip s) = false.
Proof.
  induction s as [|d s IH]; simpl; [reflexivity|].
  intros H. apply orb_false_iff in H as [Hd Hs]. specialize (IH Hs).
  destruct (PyStr.rstrip s) as [|e r].
  - destruct (PyStr.is_space d); simpl; [reflexivity | now rewrite Hd].
  - simpl in IH |- *. now rewrite Hd, IH.
Qed.

Lemma int_digits_nonneg (s : string) (u : bool) (acc v : Z) :
  0 <= acc -> PyStr.int_digits s u acc = Some v -> 0 <= v.
Proof.
  revert u acc; induction s as [|c s IH]; intros u acc Hacc; simpl.
  - destruct u; [discriminate|]. intros H. injection H as <-. exact Hacc.
  - destruct (PyStr.is_digit c) eqn:Hc.
    + apply IH. pose proof (is_digit_range c Hc). lia.
    + destruct (Ascii.eqb c "_"); [|discriminate].
      destruct u; [discriminate|]. now apply IH.
Qed.

Lemma int_unsigned_nonneg (s : string) (v : Z) :
  PyStr.int_unsigned s = Some v -> 0 <= v.
Proof.
  destruct s as [|c s]; simpl; [discriminate|].
  destruct (PyStr.is_digit c) eqn:Hc; [|discriminate].
  apply int_digits_nonneg. pose proof (is_digit_range c Hc). lia.
Qed.

(** A literal without a minus sign is not negative. *)
Lemma int_of_str_nonneg (s : string) (v : Z) :
  PyStr.has_char "-" s = false -> PyStr.int_of_str s = Some v -> 0 <= v.
Proof.
  intros Hs. unfold PyStr.int_of_str.
  assert (PyStr.has_char "-" (PyStr.strip s) = false) as Hstrip.
  { unfold PyStr.strip. now apply rstrip_has_char, lstrip_has_char. }
  destruct (PyStr.strip s) as [|c body] eqn:E.
  - simpl. discriminate.
  - destruct (Ascii.eqb_spec c "-") as [->|Hm].
    + simpl in Hstrip. discriminate.
    + destruct (Ascii.eqb_spec c "+") as [->|Hp].
      * apply int_unsigned_nonneg.
      * intros H. apply (int_unsigned_nonneg (String c body)).
        rewrite <- H.
        destruct c as [[] [] [] [] [] [] [] []]; try reflexivity;
          (now contradiction Hm) || (now contradiction Hp).
Qed.

End ConfigFacts.

(** X7: how the configuration step of [download_videos] reads its
    [playlist_items] argument.  [None] and the empty text restrict
    nothing.  A text without a hyphen is passed on as the index list,
    unread.  A text with a hyphen is never an index list: it either raises
    [ValueError], or it is exactly two hyphen-free parts that [int] reads,
    and then the restriction is the range between those two numbers,
    neither of them negative. *)
Theorem build_ydl_opts_selection
    (output_path audio_format descriptor : pyval) (audio_only : bool) :
  (truthy descriptor = false ->
   exists opts,
     build_ydl_opts output_path audio_only audio_format descriptor
     = Returns opts
     /\ selection_of_opts opts = Unrestricted)
  /\ (forall items,
        descriptor = PyStr items -> items <> "" ->
        PyStr.contains "-" items = false ->
        exists opts,
          build_ydl_opts output_path audio_only audio_format descriptor
          = Returns opts
          /\ selection_of_opts opts = Indices items)
  /\ (forall items,
        descriptor = PyStr items -> plain_text items ->
        PyStr.contains "-" items = true ->
        build_ydl_opts output_path audio_only audio_format descriptor
        = Raises ValueError
        \/ exists opts a b,
             build_ydl_opts output_path audio_only audio_format
               descriptor = Returns opts
             /\ selection_of_opts opts = Range a b
             /\ playlist_items opts = None
             /\ 0 <= a /\ 0 <= b
             /\ exists x y,
                  PyStr.split "-" items = [x; y]
                  /\ PyStr.int_of_str x = Some a
                  /\ PyStr.int_of_str y = Some b).
Proof.
  split; [|split].
  - intros Ht. unfold build_ydl_opts.
    destruct descriptor as [|items]; [eexists; split; reflexivity|].
    rewrite Ht. eexists; split; reflexivity.
  - intros items -> Hne Hc. unfold build_ydl_opts. rewrite Hc.
    destruct items; [now contradiction Hne|]. simpl.
    eexists; split; reflexivity.
  - intros items -> _ Hc. unfold build_ydl_opts.
    rewrite (contains_nonempty _ _ Hc), Hc.
    pose proof (split_parts_no_sep "-" items) as Hparts.
    destruct (PyStr.split "-" items) as [|x [|y [|z parts]]] eqn:Es;
      try (left; reflexivity).
    inversion Hparts as [|? ? Hx Hrest]; subst.
    inversion Hrest as [|? ? Hy _]; subst.
    unfold unpack_int_pair, py_int.
    destruct (PyStr.int_of_str x) as [a|] eqn:Ex; [|left; reflexivity].
    destruct (PyStr.int_of_str y) as [b|] eqn:Ey; [|left; reflexivity].
    right. simpl. eexists _, a, b. split; [reflexivity|].
    split; [reflexivity|]. split; [reflexivity|].
    split; [now apply (int_of_str_nonneg x)|].
    split; [now apply (int_of_str_nonneg y)|].
    exists x, y. auto.
Qed.

Lemma build_ydl_opts_selection_witness :
  PyStr.contains "-" "1,3,5" = false
  /\ exists opts,
       build_ydl_opts (PyStr "downloads") false (PyStr "mp3")
         (PyStr "1,3,5") = Returns opts
       /\ selection_of_opts opts = Indices "1,3,5".
Proof.
  assert (PyStr.contains "-" "1,3,5" = false) as Hc by reflexivity.
  assert ("1,3,5" <> "") as Hne by discriminate.
  split; [exact Hc|].
  exact (proj1 (proj2 (build_ydl_opts_selection (PyStr "downloads")
                         (PyStr "mp3") (PyStr "1,3,5") false))
           "1,3,5" eq_refl Hne Hc).
Defined.

(** X8: the range descriptor round trip.  The text [a-b] that
    [get_playlist_config] writes for two integers is read back by the
    configuration step as the bounds [a] and [b] when neither is negative;
    when one of them is negative its minus sign is taken for a separator
    and the step raises [ValueError]. *)
Theorem build_ydl_opts_range_roundtrip
    (output_path audio_format : pyval) (audio_only : bool) (a b : Z) :
  (0 <= a -> 0 <= b ->
   plain_text (PyStr.str_of_int a) -> plain_text (PyStr.str_of_int b) ->
   exists opts,
     build_ydl_opts output_path audio_only audio_format
       (PyStr (PyStr.str_of_int a +:+ "-" +:+ PyStr.str_of_int b))
     = Returns opts
     /\ playliststart opts = Some a /\ playlistend opts = Some b)
  /\ (a < 0 \/ b < 0 ->
      build_ydl_opts output_path audio_only audio_format
        (PyStr (PyStr.str_of_int a +:+ "-" +:+ PyStr.str_of_int b))
      = Raises ValueError).
Proof.
  split.
  - intros Ha Hb _ _.
    destruct (build_ydl_opts_range output_path audio_format audio_only a b
                Ha Hb) as [opts [Hbuild Hsel]].
    exists opts. split; [exact Hbuild|].
    unfold selection_of_opts in Hsel.
    destruct (playliststart opts), (playlistend opts), (playlist_items opts);
      try discriminate Hsel; injection Hsel as -> ->; auto.
  - intros Hneg.
    change ("-" +:+ PyStr.str_of_int b)
      with (String "-" (PyStr.str_of_int b)).
    unfold build_ydl_opts. cbv iota.
    rewrite truthy_app_cons, contains_char, has_char_app.
    simpl PyStr.has_char. rewrite orb_true_r. cbv iota.
    destruct (Z_lt_le_dec a 0) as [Ha | Ha].
    + destruct a as [|p|p]; try lia.
      unfold PyStr.str_of_int at 1. simpl Z.to_int.
      cbn [NilZero.string_of_int].
      change (String "-" ?x +:+ ?y) with (String "-" (x +:+ y)).
      cbn [PyStr.split]. rewrite Ascii.eqb_refl.
      destruct (PyStr.split "-" _) as [|w [|w2 ws]]; reflexivity.
    + destruct b as [|q|q]; try lia.
      rewrite split_app_sep by now apply str_of_int_no_hyphen.
      unfold PyStr.str_of_int at 2. simpl Z.to_int.
      cbn [NilZero.string_of_int PyStr.split]. rewrite Ascii.eqb_refl.
      destruct (PyStr.split "-" _) as [|w ws]; [|reflexivity].
      unfold unpack_int_pair, py_int. rewrite int_of_str_of_int.
      reflexivity.
Qed.

Lemma build_ydl_opts_range_roundtrip_witness :
  (0 <= 3 /\ 0 <= 12
   /\ plain_text (PyStr.str_of_int 3) /\ plain_text (PyStr.str_of_int 12)
   /\ exists opts,
        build_ydl_opts (PyStr "downloads") false (PyStr "mp3")
          (PyStr (PyStr.str_of_int 3 +:+ "-" +:+ PyStr.str_of_int 12))
        = Returns opts
        /\ playliststart opts = Some 3 /\ playlistend opts = Some 12)
  /\ ((-3 < 0 \/ 12 < 0)
      /\ build_ydl_opts (PyStr "downloads") false (PyStr "mp3")
           (PyStr (PyStr.str_of_int (-3) +:+ "-" +:+ PyStr.str_of_int 12))
         = Raises ValueError).
Proof.
  assert (0 <= 3) as H3 by lia.
  assert (0 <= 12) as H12 by lia.
  assert (plain_text (PyStr.str_of_int 3)) as P3.
  { split; [reflexivity | vm_compute; discriminate]. }
  assert (plain_text (PyStr.str_of_int 12)) as P12.
  { split; [reflexivity | vm_compute; discriminate]. }
  assert (-3 < 0 \/ 12 < 0) as Hneg by (left; lia).
  split.
  - split; [exact H3|]. split; [exact H12|]. split; [exact P3|].
    split; [exact P12|].
    exact (proj1 (build_ydl_opts_range_roundtrip (PyStr "downloads")
                    (PyStr "mp3") false 3 12) H3 H12 P3 P12).
  - split; [exact Hneg|].
    exact (proj2 (build_ydl_opts_range_roundtrip (PyStr "downloads")
                    (PyStr "mp3") false (-3) 12) Hneg).
Defined.


(** ** The protocol of [download_videos] *)

Lemma calls_app (a b : list event) :
  calls (a ++ b)%list = (calls a ++ calls b)%list.
Proof. apply List.filter_app. Qed.

Lemma info_only_no_calls (evs : list event) :
  Forall (fun ev => exists msg, ev = EvLogInfo msg) evs -> calls evs = [].
Proof.
  induction 1 as [|ev evs [msg ->] _ IH]; [reflexivity | exact IH].
Qed.

(** One step of a run of [download_videos], as [run_step], keeping what the
    summary did and that it called nothing. *)
Ltac run_step_calls H :=
  match type of H with
  | context [log_summary ?i ?p ?t] =>
      let evs := fresh "evs" in
      let Hevs := fresh "Hevs" in
      let Hs := fresh "Hsummary" in
      let Hc := fresh "Hcalls" in
      destruct (log_summary_cases i p t) as [evs [Hevs [Hs | Hs]]];
      rewrite Hs in H;
      pose proof (info_only_no_calls _ Hevs) as Hc;
      apply info_only_silent in Hevs;
      destruct Hevs as (? & ? & ? & ?)
  | context [match ?x with _ => _ end] =>
      match x with
      | fs_mkdir _ _ => destruct x as [[]|?] eqn:?
      | ydl_open _ _ => destruct x as [[]|?] eqn:?
      | ydl_close _ _ => destruct x as [[]|?] eqn:?
      | ydl_download _ _ _ => destruct x as [[]|?] eqn:?
      | ydl_extract_info _ _ _ => destruct x as [?|?] eqn:?
      | stdin_input _ _ => destruct x as [?|?] eqn:?
      | Path _ => destruct x as [?|?] eqn:?
      | build_ydl_opts _ _ _ _ => destruct x as [?|?] eqn:?
      | is_Exception _ => destruct x eqn:?
      | negb _ => destruct x eqn:?
      end
  end; cbv iota beta in H.

Ltac run_all H :=
  unfold download_videos, probe_confirm_download, with_context,
    try_except_Exception, bind, lift, ret, log_info, log_error, call in H;
  cbv iota beta in H;
  repeat run_step_calls H;
  injection H as <- <-.

Ltac observe_calls_pass :=
  simpl;
  rewrite ?probes_app, ?downloads_app, ?logged_errors_app, ?inputs_app,
    ?calls_app;
  repeat match goal with
         | E : probes ?evs = [] |- _ => rewrite !E
         | E : downloads ?evs = [] |- _ => rewrite !E
         | E : logged_errors ?evs = [] |- _ => rewrite !E
         | E : inputs ?evs = [] |- _ => rewrite !E
         | E : calls ?evs = [] |- _ => rewrite !E
         end.

Ltac observe_calls := repeat (progress observe_calls_pass).

(** X9: the calls [download_videos] makes outside the program, in any
    world and for any arguments, form one of six sequences: none; the
    creation of the directory alone; the creation and the opening of the
    library context; these two, the probe and the closing of the context;
    the same with the confirmation prompt before the closing; the same
    with one download of the URL between the prompt and the closing.  So
    there is never a download without the prompt before it, a prompt
    without the probe before it, a second probe, prompt or download, or a
    call after the context was closed. *)
Theorem download_videos_call_sequence
    (env : Env) (url output_path quality : pyval) (audio_only : bool)
    (audio_format playlist_items : pyval) :
  calls (snd (download_videos env url output_path quality audio_only
                audio_format playlist_items [])) = []
  \/ exists path,
       Path output_path = Returns path
       /\ (calls (snd (download_videos env url output_path quality
                         audio_only audio_format playlist_items []))
           = [EvMkdir path]
           \/ exists opts,
                build_ydl_opts output_path audio_only audio_format
                  playlist_items = Returns opts
                /\ In (calls (snd (download_videos env url output_path
                                     quality audio_only audio_format
                                     playlist_items [])))
                     [ [EvMkdir path; EvOpen opts];
                       [EvMkdir path; EvOpen opts;
                        EvExtractInfo opts url; EvClose opts];
                       [EvMkdir path; EvOpen opts;
                        EvExtractInfo opts url;
                        EvInput confirm_prompt; EvClose opts];
                       [EvMkdir path; EvOpen opts;
                        EvExtractInfo opts url;
                        EvInput confirm_prompt;
                        EvDownload opts [url]; EvClose opts] ]).
Proof.
  destruct (download_videos env url output_path quality audio_only
              audio_format playlist_items []) as [r t'] eqn:Hrun.
  cbn [snd]. run_all Hrun.
  all: observe_calls.
  all: try (left; reflexivity).
  all: right; eexists; split; [reflexivity|].
  all: try (left; reflexivity).
  all: right; eexists; split; [reflexivity|].
  all: simpl; tauto.
Qed.

(** X10: which exceptions leave [download_videos] before its [try] block.
    An error ([Exception]) leaves the function only from the three steps
    that precede the [try]: the path of a [None] output directory, the
    creation of the directory, or the playlist entry of the configuration;
    and whatever these steps raise does leave it, with no log line, no
    library call and no prompt. *)
Theorem download_videos_escapes_iff_setup_fails
    (env : Env) (url output_path quality : pyval) (audio_only : bool)
    (audio_format playlist_items : pyval) (r : py_result bool)
    (t' : list event) :
  download_videos env url output_path quality audio_only audio_format
    playlist_items [] = (r, t') ->
  (forall e,
     r = Raises e -> is_Exception e = true ->
     Path output_path = Raises e
     \/ exists path,
          Path output_path = Returns path
          /\ t' = [EvMkdir path]
          /\ (fs_mkdir env path = Raises e
              \/ (fs_mkdir env path = Returns tt
                  /\ build_ydl_opts output_path audio_only audio_format
                       playlist_items = Raises e)))
  /\ (forall e, Path output_path = Raises e -> r = Raises e /\ t' = [])
  /\ (forall path e,
        Path output_path = Returns path ->
        fs_mkdir env path = Raises e
        \/ (fs_mkdir env path = Returns tt
            /\ build_ydl_opts output_path audio_only audio_format
                 playlist_items = Raises e) ->
        r = Raises e /\ t' = [EvMkdir path]).
Proof.
  intros Hrun. run_all Hrun.
  all: split;
    [ intros ? Hr He; try discriminate Hr; injection Hr as <-;
      first [ congruence
            | left; reflexivity
            | right; eexists; split; [reflexivity|];
              split; [reflexivity|]; tauto ]
    | split;
      [ intros ? HP; try discriminate HP; injection HP as <-;
        split; reflexivity
      | intros ? ? HP Hc; try discriminate HP; injection HP as <-;
        destruct Hc as [Hc | [Hc Hb]]; try congruence;
        split; congruence ] ].
Qed.

Lemma download_videos_escapes_iff_setup_fails_witness :
  fs_mkdir mkdir_failing_env "downloads" = Raises OSError
  /\ fst (sample_run mkdir_failing_env) = Raises OSError
  /\ snd (sample_run mkdir_failing_env) = [EvMkdir "downloads"].
Proof.
  assert (fs_mkdir mkdir_failing_env "downloads" = Raises OSError)
    as Hmk by reflexivity.
  split; [exact Hmk|].
  exact (proj2 (proj2 (download_videos_escapes_iff_setup_fails
                         mkdir_failing_env (PyStr video_url)
                         (PyStr "downloads") (PyStr "best") false
                         (PyStr "mp3") PyNone _ _
                         (surjective_pairing (sample_run mkdir_failing_env))))
           "downloads" OSError eq_refl (or_introl Hmk)).
Defined.

(** X11: what is no error is not caught.  When the probe, the
    confirmation prompt or the download raises an exception outside
    [Exception] (a keyboard interrupt, an exit), and closing the library
    context succeeds, that exception leaves [download_videos]: nothing is
    logged as an error, nothing is downloaded after it, and the context was
    closed on the way out. *)
Theorem download_videos_interrupt_propagates
    (env : Env) (url output_path quality : pyval) (audio_only : bool)
    (audio_format playlist_items : pyval) (r : py_result bool)
    (t' : list event) (e : exn) :
  is_Exception e = false ->
  download_videos env url output_path quality audio_only audio_format
    playlist_items [] = (r, t') ->
  forall opts,
    build_ydl_opts output_path audio_only audio_format playlist_items
    = Returns opts ->
    ydl_close env opts = Returns tt ->
    (probes t' <> [] -> ydl_extract_info env opts url = Raises e ->
     r = Raises e /\ logged_errors t' = [] /\ downloads t' = []
     /\ last (calls t') = Some (EvClose opts))
    /\ (inputs t' <> [] -> stdin_input env confirm_prompt = Raises e ->
        r = Raises e /\ logged_errors t' = [] /\ downloads t' = []
        /\ last (calls t') = Some (EvClose opts))
    /\ (downloads t' <> [] -> ydl_download env opts [url] = Raises e ->
        r = Raises e /\ logged_errors t' = []
        /\ last (calls t') = Some (EvClose opts)).
Proof.
  intros He Hrun. run_all Hrun.
  all: intros ? Hb Hcl; try discriminate Hb; try (injection Hb as <-).
  all: observe_calls.
  all: split; [|split].
  all: intros Hne Hraise; try (now contradiction Hne).
  all: try congruence.
  all: repeat split; congruence.
Qed.

Lemma download_videos_interrupt_propagates_witness :
  is_Exception KeyboardInterrupt = false
  /\ probes (snd (sample_run (probe_failing_env KeyboardInterrupt))) <> []
  /\ fst (sample_run (probe_failing_env KeyboardInterrupt))
     = Raises KeyboardInterrupt
  /\ logged_errors (snd (sample_run (probe_failing_env KeyboardInterrupt)))
     = []
  /\ downloads (snd (sample_run (probe_failing_env KeyboardInterrupt))) = []
  /\ last (calls (snd (sample_run (probe_failing_env KeyboardInterrupt))))
     = Some (EvClose opts_video_downloads).
Proof.
  assert (is_Exception KeyboardInterrupt = false) as He by reflexivity.
  assert (probes (snd (sample_run (probe_failing_env KeyboardInterrupt)))
          <> []) as Hne.
  { vm_compute. discriminate. }
  split; [exact He|]. split; [exact Hne|].
  exact (proj1 (download_videos_interrupt_propagates
                  (probe_failing_env KeyboardInterrupt) (PyStr video_url)
                  (PyStr "downloads") (PyStr "best") false (PyStr "mp3")
                  PyNone _ _ KeyboardInterrupt He
                  (surjective_pairing
                     (sample_run (probe_failing_env KeyboardInterrupt)))
                  opts_video_downloads eq_refl eq_refl)
           Hne eq_refl).
Defined.

Lemma log_summary_raises_iff (info : option info_dict) (items : pyval)
    (t : list event) :
  fst (log_summary info items t) = Raises TypeError
  <-> (info = None
       \/ exists i, info = Some i
            /\ (info_entries i = IsNone
                \/ (info_entries i = Absent /\ info_duration i = IsNone))).
Proof.
  unfold log_summary, log_info, bind, call, raise, ret.
  destruct info as [i|].
  - destruct (info_entries i) as [| |n] eqn:Hent.
    + destruct (info_duration i) as [| |d] eqn:Hdur; simpl; split;
        try discriminate; try (intros _; right; exists i; tauto);
        intros [H | [j [Hj [H | [_ H]]]]]; try discriminate;
        injection Hj as <-; congruence.
    + simpl. split; [intros _; right; exists i; tauto | reflexivity].
    + destruct (truthy items); simpl; split; try discriminate;
        intros [H | [j [Hj [H | [H _]]]]]; try discriminate;
        injection Hj as <-; congruence.
  - simpl. split; [tauto | reflexivity].
Qed.

(** X12: a probe that returns nothing usable is reported as an error, not
    as a missing video.  When [extract_info] returns [None] (as it does
    under [ignoreerrors] for a video it cannot extract), or information
    whose [entries] is [None], or whose [duration] is [None] for a single
    video, the summary raises [TypeError] inside the [try]: the function
    returns [False], logs that one error, and neither asks for
    confirmation nor downloads. *)
Theorem download_videos_unusable_probe_result
    (env : Env) (url output_path quality : pyval) (audio_only : bool)
    (audio_format playlist_items : pyval) (r : py_result bool)
    (t' : list event) (opts : ydl_opts) (info : option info_dict) :
  download_videos env url output_path quality audio_only audio_format
    playlist_items [] = (r, t') ->
  probes t' <> [] ->
  build_ydl_opts output_path audio_only audio_format playlist_items
  = Returns opts ->
  ydl_extract_info env opts url = Returns info ->
  ydl_close env opts = Returns tt ->
  (info = None
   \/ exists i, info = Some i
        /\ (info_entries i = IsNone
            \/ (info_entries i = Absent /\ info_duration i = IsNone))) ->
  r = Returns false /\ logged_errors t' = [TypeError] /\ inputs t' = []
  /\ downloads t' = [].
Proof.
  intros Hrun. run_all Hrun.
  all: observe_calls.
  all: intros Hne Hb Hinfo Hcl Hbad; try discriminate Hb;
    try (injection Hb as <-).
  all: try (now contradiction Hne).
  all: try congruence.
  all: match goal with
       | Hs : log_summary ?i ?p ?t = _,
         Hx : ydl_extract_info _ _ _ = Returns ?i |- _ =>
           rewrite Hinfo in Hx; injection Hx as <-;
           pose proof (proj2 (log_summary_raises_iff info p t) Hbad) as Hr;
           rewrite Hs in Hr; simpl in Hr; try discriminate Hr
       end.
  all: try match goal with
           | E : is_Exception TypeError = false |- _ => discriminate E
           end.
  all: repeat split; congruence.
Qed.

Lemma download_videos_unusable_probe_result_witness :
  probes (snd (sample_run probe_empty_env)) <> []
  /\ ydl_extract_info probe_empty_env opts_video_downloads (PyStr video_url)
     = Returns None
  /\ fst (sample_run probe_empty_env) = Returns false
  /\ logged_errors (snd (sample_run probe_empty_env)) = [TypeError]
  /\ inputs (snd (sample_run probe_empty_env)) = []
  /\ downloads (snd (sample_run probe_empty_env)) = [].
Proof.
  assert (probes (snd (sample_run probe_empty_env)) <> []) as Hne.
  { vm_compute. discriminate. }
  split; [exact Hne|]. split; [reflexivity|].
  exact (download_videos_unusable_probe_result probe_empty_env
           (PyStr video_url) (PyStr "downloads") (PyStr "best") false
           (PyStr "mp3") PyNone _ _ opts_video_downloads None
           (surjective_pairing (sample_run probe_empty_env))
           Hne eq_refl eq_refl eq_refl (or_introl eq_refl)).
Defined.

(** X13: an error at the confirmation prompt (end of file on the
    terminal, say) is handled like a library error: the function returns
    [False], logs that error, and downloads nothing. *)
Theorem download_videos_confirmation_error
    (env : Env) (url output_path quality : pyval) (audio_only : bool)
    (audio_format playlist_items : pyval) (r : py_result bool)
    (t' : list event) (opts : ydl_opts) (e : exn) :
  download_videos env url output_path quality audio_only audio_format
    playlist_items [] = (r, t') ->
  inputs t' <> [] ->
  build_ydl_opts output_path audio_only audio_format playlist_items
  = Returns opts ->
  stdin_input env confirm_prompt = Raises e ->
  is_Exception e = true ->
  ydl_close env opts = Returns tt ->
  r = Returns false /\ logged_errors t' = [e] /\ downloads t' = [].
Proof.
  intros Hrun. run_all Hrun.
  all: observe_calls.
  all: intros Hne Hb Hin He Hcl; try discriminate Hb;
    try (injection Hb as <-).
  all: try (now contradiction Hne).
  all: try congruence.
  all: repeat split; congruence.
Qed.

Lemma download_videos_confirmation_error_witness :
  inputs (snd (sample_run stdin_closed_env)) <> []
  /\ stdin_input stdin_closed_env confirm_prompt = Raises EOFError
  /\ is_Exception EOFError = true
  /\ fst (sample_run stdin_closed_env) = Returns false
  /\ logged_errors (snd (sample_run stdin_closed_env)) = [EOFError]
  /\ downloads (snd (sample_run stdin_closed_env)) = [].
Proof.
  assert (inputs (snd (sample_run stdin_closed_env)) <> []) as Hne.
  { vm_compute. discriminate. }
  split; [exact Hne|]. split; [reflexivity|]. split; [reflexivity|].
  exact (download_videos_confirmation_error stdin_closed_env
           (PyStr video_url) (PyStr "downloads") (PyStr "best") false
           (PyStr "mp3") PyNone _ _ opts_video_downloads EOFError
           (surjective_pairing (sample_run stdin_closed_env))
           Hne eq_refl eq_refl eq_refl eq_refl).
Defined.

(** X14: what the boolean result of [download_videos] means.  [True]
    means that the user confirmed, that the one download call for the URL
    returned, that the context was closed, that no error was logged and
    that success was announced.  [False] means one of two things that the
    result does not tell apart: an error was caught and logged, or the
    user declined at the prompt, in which case nothing was downloaded and
    the cancellation was logged. *)
Theorem download_videos_result_meaning
    (env : Env) (url output_path quality : pyval) (audio_only : bool)
    (audio_format playlist_items : pyval) (r : py_result bool)
    (t' : list event) :
  download_videos env url output_path quality audio_only audio_format
    playlist_items [] = (r, t') ->
  (r = Returns true ->
   exists opts answer,
     downloads t' = [(opts, [url])]
     /\ ydl_download env opts [url] = Returns tt
     /\ ydl_close env opts = Returns tt
     /\ stdin_input env confirm_prompt = Returns answer
     /\ affirmative answer = true
     /\ logged_errors t' = []
     /\ In (EvLogInfo "Download completed successfully!") t')
  /\ (r = Returns false ->
      (exists e, logged_errors t' = [e] /\ is_Exception e = true)
      \/ (logged_errors t' = [] /\ downloads t' = []
          /\ In (EvLogInfo "Download cancelled by user") t'
          /\ exists answer,
               stdin_input env confirm_prompt = Returns answer
               /\ affirmative answer = false)).
Proof.
  intros Hrun. unfold affirmative. run_all Hrun.
  all: repeat match goal with
              | E : negb _ = true |- _ => apply negb_true_iff in E
              | E : negb _ = false |- _ => apply negb_false_iff in E
              end.
  all: split; intros Hr; try discriminate Hr.
  all: try (eexists _, _; observe_calls;
            repeat split; try eassumption; try reflexivity;
            rewrite ?in_app_iff; simpl; tauto).
  all: try (left; eexists; observe_calls; split; [reflexivity | assumption]).
  all: right; observe_calls; repeat split;
    [ rewrite ?in_app_iff; simpl; tauto
    | eexists; split; [reflexivity | assumption] ].
Qed.

Lemma download_videos_result_meaning_witness :
  fst (sample_run (cooperative_env "n")) = Returns false
  /\ ((exists e,
         logged_errors (snd (sample_run (cooperative_env "n"))) = [e]
         /\ is_Exception e = true)
      \/ (logged_errors (snd (sample_run (cooperative_env "n"))) = []
          /\ downloads (snd (sample_run (cooperative_env "n"))) = []
          /\ In (EvLogInfo "Download cancelled by user")
               (snd (sample_run (cooperative_env "n")))
          /\ exists answer,
               stdin_input (cooperative_env "n") confirm_prompt
               = Returns answer
               /\ affirmative answer = false)).
Proof.
  assert (fst (sample_run (cooperative_env "n")) = Returns false)
    as Hr by reflexivity.
  split; [exact Hr|].
  exact (proj2 (download_videos_result_meaning (cooperative_env "n")
                  (PyStr video_url) (PyStr "downloads") (PyStr "best") false
                  (PyStr "mp3") PyNone _ _
                  (surjective_pairing (sample_run (cooperative_env "n"))))
           Hr).
Defined.





(** ** From the collected preferences to the call *)

Lemma playlist_session_lookup
    (url out mode st en ix dt q af : pyval) :
  let prefs := playlist_session_answers url out mode st en ix dt q af in
  prefs !! "url" = Some url /\ prefs !! "output_path" = Some out
  /\ prefs !! "playlist_options" = Some mode
  /\ prefs !! "start_index" = Some st /\ prefs !! "end_index" = Some en
  /\ prefs !! "video_indices" = Some ix
  /\ prefs !! "download_type" = Some dt /\ prefs !! "quality" = Some q
  /\ prefs !! "audio_format" = Some af.
Proof. repeat split; chain_lookup. Qed.

Lemma video_session_lookup (url out dt q af : pyval) :
  let prefs := video_session_answers url out dt q af in
  prefs !! "url" = Some url /\ prefs !! "output_path" = Some out
  /\ prefs !! "playlist_options" = None
  /\ prefs !! "download_type" = Some dt /\ prefs !! "quality" = Some q
  /\ prefs !! "audio_format" = Some af.
Proof. repeat split; chain_lookup. Qed.

(** The lines of [main] between the prompts and the call, read on the
    entries of the answers. *)
Lemma main_attempt_args
    (env : Env) (is_playlist_url : bool) (preferences : Preferences)
    (url out dt q af items : pyval) :
  preferences !! "url" = Some url ->
  preferences !! "output_path" = Some out ->
  preferences !! "download_type" = Some dt ->
  preferences !! "quality" = Some q ->
  preferences !! "audio_format" = Some af ->
  (if is_playlist_url && truthy (dict_get preferences "playlist_options")
   then get_playlist_config preferences
   else Returns PyNone) = Returns items ->
  main_attempt env is_playlist_url preferences
  = download_videos env url out
      (if pyval_eqb dt (PyStr "Audio Only") then PyStr "best" else q)
      (pyval_eqb dt (PyStr "Audio Only"))
      (if pyval_eqb dt (PyStr "Audio Only") then af else PyStr "mp3")
      items.
Proof.
  intros Hurl Hout Hdt Hq Haf Hitems.
  unfold main_attempt, bind, lift, dict_getitem.
  rewrite Hdt, Hq, Haf, Hitems, Hurl, Hout.
  destruct (pyval_eqb dt (PyStr "Audio Only")); reflexivity.
Qed.

(** What [main] makes of the preferences of a completed session: the
    arguments of its call of [download_videos], and the form of the
    playlist descriptor among them. *)
Lemma collected_attempt
    (urlparse : string -> py_result ParseResult) (is_playlist_url : bool)
    (script : list user_action) (preferences : Preferences)
    (rest : list user_action) :
  get_user_input urlparse is_playlist_url script = Some (preferences, rest) ->
  exists url out quality audio_only audio_format items,
    validate_url urlparse url = Returns true
    /\ (if is_playlist_url
        then get_playlist_config preferences = Returns items
        else items = PyNone)
    /\ (forall env,
          main_attempt env is_playlist_url preferences
          = download_videos env (PyStr url) (PyStr out) quality audio_only
              audio_format items)
    /\ (if audio_only
        then quality = PyStr "best"
             /\ exists f, In f ["mp3"; "wav"; "m4a"]
                  /\ audio_format = PyStr f
        else (exists q, In q quality_tiers /\ quality = PyStr q)
             /\ audio_format = PyStr "mp3")
    /\ (items = PyNone
        \/ (exists a b, 0 <= a /\ 0 <= b
              /\ items = PyStr (PyStr.str_of_int a +:+ "-"
                                +:+ PyStr.str_of_int b))
        \/ (exists text,
              preferences !! "video_indices" = Some (PyStr text)
              /\ items = PyStr (PyStr.replace_char " " "" text))).
Proof.
  intros H.
  apply get_user_input_shape in H
    as (url & out & dt & q & af & Hurl & Hmedia & Hshape).
  assert (exists items,
            (if is_playlist_url
             then get_playlist_config preferences = Returns items
             else items = PyNone)
            /\ (if is_playlist_url
                   && truthy (dict_get preferences "playlist_options")
                then get_playlist_config preferences
                else Returns PyNone) = Returns items
            /\ preferences !! "url" = Some (PyStr url)
            /\ preferences !! "output_path" = Some (PyStr out)
            /\ preferences !! "download_type" = Some dt
            /\ preferences !! "quality" = Some q
            /\ preferences !! "audio_format" = Some af
            /\ (items = PyNone
                \/ (exists a b, 0 <= a /\ 0 <= b
                      /\ items = PyStr (PyStr.str_of_int a +:+ "-"
                                        +:+ PyStr.str_of_int b))
                \/ (exists text,
                      preferences !! "video_indices" = Some (PyStr text)
                      /\ items = PyStr (PyStr.replace_char " " "" text))))
    as (items & Hcfg & Hcond & Lurl & Lout & Ldt & Lq & Laf & Hform).
  { destruct is_playlist_url.
    - destruct Hshape as (mode & st & en & ix & -> & Hmode).
      destruct (playlist_session_lookup (PyStr url) (PyStr out) (PyStr mode)
                  st en ix dt q af)
        as (L1 & L2 & L3 & L4 & L5 & L6 & L7 & L8 & L9).
      assert (dict_get (playlist_session_answers (PyStr url) (PyStr out)
                          (PyStr mode) st en ix dt q af) "playlist_options"
              = PyStr mode) as Hget.
      { unfold dict_get. now rewrite L3. }
      assert (exists items,
                get_playlist_config
                  (playlist_session_answers (PyStr url) (PyStr out)
                     (PyStr mode) st en ix dt q af) = Returns items
                /\ truthy (PyStr mode) = true
                /\ (items = PyNone
                    \/ (exists a b, 0 <= a /\ 0 <= b
                          /\ items = PyStr (PyStr.str_of_int a +:+ "-"
                                            +:+ PyStr.str_of_int b))
                    \/ (exists text,
                          ix = PyStr text
                          /\ items
                             = PyStr (PyStr.replace_char " " "" text))))
        as (items & Hitems & Htruthy & Hform).
      { destruct Hmode as [(-> & -> & -> & ->)
                          | [(-> & -> & s & e & -> & -> & Hs & He)
                            | (-> & -> & -> & text & ->)]].
        - eexists. split; [|split; [reflexivity | left; reflexivity]].
          apply get_playlist_config_other; rewrite Hget; discriminate.
        - destruct (int_of_str_isdigit s Hs) as [a [Ha Ha0]].
          destruct (int_of_str_isdigit e He) as [b [Hb Hb0]].
          eexists. split; [|split; [reflexivity|]].
          + now apply (get_playlist_config_range _ s e a b).
          + right; left. exists a, b. auto.
        - eexists. split; [|split; [reflexivity|]].
          + now apply (get_playlist_config_specific _ text).
          + right; right. exists text. auto. }
      exists items. rewrite Hget, Htruthy. simpl.
      repeat split; try assumption.
      destruct Hform as [Hf | [Hf | (text & -> & Hf)]]; eauto.
    - subst preferences.
      destruct (video_session_lookup (PyStr url) (PyStr out) dt q af)
        as (L1 & L2 & L3 & L4 & L5 & L6).
      exists PyNone. simpl. auto 10. }
  destruct Hmedia as [(-> & (x & Hx & ->) & ->) | (-> & -> & (f & Hf & ->))].
  - exists url, out, (PyStr x), false, (PyStr "mp3"), items.
    split; [exact Hurl|]. split; [exact Hcfg|].
    split; [|split; [eauto | exact Hform]].
    intros env.
    exact (main_attempt_args env _ _ _ _ _ _ _ _ Lurl Lout Ldt Lq Laf Hcond).
  - exists url, out, (PyStr "best"), true, (PyStr f), items.
    split; [exact Hurl|]. split; [exact Hcfg|].
    split; [|split; [eauto | exact Hform]].
    intros env.
    exact (main_attempt_args env _ _ _ _ _ _ _ _ Lurl Lout Ldt Lq Laf Hcond).
Qed.



(** ** Traces only grow *)

Section Appends.

Lemma appends_ret {A} (a : A) : appends (ret a).
Proof. intros t. unfold ret. simpl. now rewrite app_nil_r. Qed.

Lemma appends_raise {A} (e : exn) : appends (@raise A e).
Proof. intros t. unfold raise. simpl. now rewrite app_nil_r. Qed.

Lemma appends_lift {A} (r : py_result A) : appends (lift r).
Proof. intros t. unfold lift. simpl. now rewrite app_nil_r. Qed.

Lemma appends_call {A} (ev : event) (r : py_result A) : appends (call ev r).
Proof. intros t. reflexivity. Qed.

Lemma appends_bind {A B} (m : M A) (k : A -> M B) :
  appends m -> (forall a, appends (k a)) -> appends (bind m k).
Proof.
  intros Hm Hk t. unfold bind. rewrite (Hm t).
  destruct (m []) as [[a|e] s]; simpl.
  - rewrite (Hk a (t ++ s)%list), (Hk a s). simpl. now rewrite app_assoc.
  - reflexivity.
Qed.

Lemma appends_try {A} (body : M A) (handler : exn -> M A) :
  appends body -> (forall e, appends (handler e)) ->
  appends (try_except_Exception body handler).
Proof.
  intros Hb Hh t. unfold try_except_Exception. rewrite (Hb t).
  destruct (body []) as [[a|e] s]; simpl; [reflexivity|].
  destruct (is_Exception e); [|reflexivity].
  rewrite (Hh e (t ++ s)%list), (Hh e s). simpl. now rewrite app_assoc.
Qed.

Lemma appends_with {A} (enter leave : M unit) (body : M A) :
  appends enter -> appends leave -> appends body ->
  appends (with_context enter leave body).
Proof.
  intros He Hl Hb t. unfold with_context. rewrite (He t).
  destruct (enter []) as [[[]|e] s1]; simpl; [|reflexivity].
  rewrite (Hb (t ++ s1)%list), (Hb s1).
  destruct (body []) as [r s2]; simpl.
  rewrite (Hl ((t ++ s1) ++ s2)%list), (Hl (s1 ++ s2)%list).
  destruct (leave []) as [[[]|e] s3]; simpl; now rewrite !app_assoc.
Qed.

Lemma appends_log_summary (info : option info_dict) (items : pyval) :
  appends (log_summary info items).
Proof.
  unfold log_summary.
  destruct info as [i|]; [|apply appends_raise].
  destruct (info_entries i).
  - apply appends_bind; [apply appends_call|]. intros _.
    destruct (info_duration i);
      first [apply appends_call | apply appends_raise].
  - apply appends_bind; [apply appends_call|]. intros _.
    apply appends_raise.
  - apply appends_bind; [apply appends_call|]. intros _.
    apply appends_bind; [apply appends_call|]. intros _.
    destruct (truthy items); [apply appends_call | apply appends_ret].
Qed.

(** [download_videos] reads nothing of the trace it is given: a run after
    other events is the run on a fresh trace, appended to them. *)
Lemma download_videos_appends
    (env : Env) (url output_path quality : pyval) (audio_only : bool)
    (audio_format playlist_items : pyval) :
  appends (download_videos env url output_path quality audio_only
             audio_format playlist_items).
Proof.
  unfold download_videos, probe_confirm_download, log_info, log_error.
  apply appends_bind; [apply appends_lift|]. intros path.
  apply appends_bind; [apply appends_call|]. intros _.
  apply appends_bind; [apply appends_lift|]. intros opts.
  apply appends_try.
  - apply appends_bind; [apply appends_call|]. intros _.
    apply appends_bind.
    + apply appends_with; try apply appends_call.
      apply appends_bind; [apply appends_call|]. intros info.
      apply appends_bind; [apply appends_log_summary|]. intros _.
      apply appends_bind; [apply appends_call|]. intros answer.
      destruct (negb _).
      * apply appends_bind; [apply appends_call|]. intros _.
        apply appends_ret.
      * apply appends_bind; [apply appends_call|]. intros _.
        apply appends_ret.
    + intros [b|]; [apply appends_ret|].
      apply appends_bind; [apply appends_call|]. intros _.
      apply appends_ret.
  - intros e. apply appends_bind; [apply appends_call|]. intros _.
    apply appends_ret.
Qed.

End Appends.

(** ** The session loop *)

Section SessionFacts.

Variable urlparse : string -> py_result ParseResult.

(** Once the configuration is built, and with a library and a terminal that
    raise nothing but errors, [download_videos] returns. *)
Lemma download_videos_returns
    (env : Env) (url output_path quality : pyval) (audio_only : bool)
    (audio_format playlist_items : pyval) (path : string) (opts : ydl_opts) :
  library_raises_errors env ->
  raises_only_errors (stdin_input env confirm_prompt) ->
  Path output_path = Returns path ->
  fs_mkdir env path = Returns tt ->
  build_ydl_opts output_path audio_only audio_format playlist_items
  = Returns opts ->
  exists b,
    fst (download_videos env url output_path quality audio_only audio_format
           playlist_items []) = Returns b.
Proof.
  intros (Hopen & Hprobe & Hdl & Hclose) Hin HP Hmk Hb.
  destruct (download_videos env url output_path quality audio_only
              audio_format playlist_items []) as [r t'] eqn:Hrun.
  run_all Hrun.
  all: simpl; try (eexists; reflexivity); try congruence.
  all: library_facts Hopen Hprobe Hdl Hclose.
  all: try match goal with
           | E : stdin_input _ _ = Raises _ |- _ =>
               rewrite E in Hin; simpl in Hin
           end.
  all: try match goal with
           | E : is_Exception TypeError = false |- _ => discriminate E
           end.
  all: congruence.
Qed.

(** The only URL [download_videos] hands to the library is its own
    argument. *)
Lemma download_videos_urls
    (env : Env) (url output_path quality : pyval) (audio_only : bool)
    (audio_format playlist_items : pyval) (r : py_result bool)
    (t' : list event) :
  download_videos env url output_path quality audio_only audio_format
    playlist_items [] = (r, t') ->
  (forall opts u, In (opts, u) (probes t') -> u = url)
  /\ (forall opts us, In (opts, us) (downloads t') -> us = [url]).
Proof.
  intros Hrun. run_all Hrun.
  all: observe_calls.
  all: split; intros ? ? Hin; try contradiction Hin;
    destruct Hin as [Hin | []]; now injection Hin as <- <-.
Qed.

Lemma has_char_replace_other (c d : ascii) (s : string) :
  Ascii.eqb d c = false ->
  PyStr.has_char c (PyStr.replace_char d "" s) = PyStr.has_char c s.
Proof.
  intros Hdc. induction s as [|x s IH]; simpl; [reflexivity|].
  destruct (Ascii.eqb d x) eqn:E.
  - apply Ascii.eqb_eq in E. subst x. simpl.
    rewrite Ascii.eqb_sym, Hdc. exact IH.
  - simpl. now rewrite IH.
Qed.

(** With a library and a terminal that raise nothing but errors, a
    directory that can be created and no hyphen in an explicit index list,
    the attempt made on the preferences of a completed session returns. *)
Lemma collected_attempt_returns
    (env : Env) (is_playlist_url : bool) (script : list user_action)
    (preferences : Preferences) (rest : list user_action)
    (t : list event) :
  library_raises_errors env ->
  (forall path, fs_mkdir env path = Returns tt) ->
  raises_only_errors (stdin_input env confirm_prompt) ->
  get_user_input urlparse is_playlist_url script = Some (preferences, rest) ->
  (forall text,
     preferences !! "video_indices" = Some (PyStr text) ->
     PyStr.contains "-" text = false) ->
  exists success,
    fst (main_attempt env is_playlist_url preferences t) = Returns success.
Proof.
  intros Hlib Hmk Hconfirm Hget Hindices.
  destruct (collected_attempt _ _ _ _ _ Hget)
    as (url & out & q & ao & af & items & _ & _ & Hcall & _ & Hform).
  rewrite Hcall, download_videos_appends.
  assert (exists opts,
            build_ydl_opts (PyStr out) ao af items = Returns opts)
    as [opts Hbuild].
  { destruct Hform as [-> | [(a & b & Ha & Hb & ->) | (text & Htext & ->)]].
    - eexists. reflexivity.
    - destruct (build_ydl_opts_range (PyStr out) af ao a b Ha Hb)
        as [opts [Hopts _]]. eauto.
    - specialize (Hindices text Htext).
      rewrite contains_char in Hindices.
      unfold build_ydl_opts.
      rewrite contains_char, has_char_replace_other, Hindices
        by reflexivity.
      destruct (truthy _); eexists; reflexivity. }
  exact (download_videos_returns env (PyStr url) (PyStr out) q ao af items
           out opts Hlib Hconfirm eq_refl (Hmk out) Hbuild).
Qed.

Lemma answer_url_first (env : Env) (url : string) :
  stdin_input (answer_url env url) url_prompt = Returns url.
Proof. reflexivity. Qed.

Lemma answer_url_other (env : Env) (url prompt : string) :
  prompt <> url_prompt ->
  stdin_input (answer_url env url) prompt = stdin_input env prompt.
Proof.
  intros Hne. unfold answer_url. cbv beta iota delta [stdin_input].
  destruct (String.eqb_spec prompt url_prompt); [contradiction|reflexivity].
Qed.

(** The attempt never asks the first question of a pass again. *)
Lemma main_attempt_answer_url (env : Env) (url : string)
    (is_playlist_url : bool) (preferences : Preferences) :
  main_attempt (answer_url env url) is_playlist_url preferences
  = main_attempt env is_playlist_url preferences.
Proof. reflexivity. Qed.

(** A benign pass ends at its last question: the loop goes on or is
    left. *)
Lemma benign_round_outcome (r : round) :
  benign_round urlparse r ->
  fst (main_iteration urlparse r) = Continues
  \/ fst (main_iteration urlparse r) = Stops.
Proof.
  intros (Hlib & Hmk & Hconfirm & [answer Hanswer] & _
          & first & preferences & rest & Hfirst & Hget & Hindices).
  unfold main_iteration. rewrite Hfirst, Hget, Hanswer.
  destruct (collected_attempt_returns (round_env r) _ _ _ _
              [EvInput url_prompt] Hlib Hmk Hconfirm Hget Hindices)
    as [success Hsuccess].
  destruct (main_attempt (round_env r) (is_playlist first) preferences
              [EvInput url_prompt]) as [res t].
  simpl in Hsuccess. subst res.
  destruct (negb _); [now right | now left].
Qed.

Lemma printed_app (a b : list output) :
  printed (a ++ b)%list = (printed a ++ printed b)%list.
Proof. apply flat_map_app. Qed.

Lemma printed_did (t : list event) : printed (map Did t) = [].
Proof. induction t as [|ev t IH]; [reflexivity | exact IH]. Qed.

Lemma main_loop_printed (rounds : list round) :
  printed (snd (main_loop urlparse rounds))
  = match fst (main_loop urlparse rounds) with
    | Finished => [goodbye]
    | _ => []
    end.
Proof.
  induction rounds as [|r rounds IH]; simpl; [reflexivity|].
  destruct (main_iteration urlparse r) as [[| |e|] t]; simpl.
  - destruct (main_loop urlparse rounds) as [res later]. simpl in *.
    now rewrite printed_app, printed_did.
  - now rewrite printed_app, printed_did.
  - apply printed_did.
  - apply printed_did.
Qed.

Lemma main_loop_last (rounds : list round) :
  fst (main_loop urlparse rounds) = Finished ->
  last (snd (main_loop urlparse rounds)) = Some (Printed goodbye).
Proof.
  induction rounds as [|r rounds IH]; simpl; [discriminate|].
  destruct (main_iteration urlparse r) as [[| |e|] t]; simpl;
    try discriminate.
  - destruct (main_loop urlparse rounds) as [res later]. simpl in *.
    intros Hres. specialize (IH Hres).
    destruct later as [|o later]; [discriminate IH|].
    now rewrite last_app, IH.
  - intros _. now rewrite last_snoc.
Qed.

End SessionFacts.


(** X17: whatever happens in a pass of the loop, every URL it hands to the
    library, for the probe or for the download, is a text that passed
    [validate_url] at the prompt of [get_user_input].  The URL typed at the
    first prompt of the pass, which nothing validates, is never handed
    over. *)
Theorem main_iteration_urls_validated
    (urlparse : string -> py_result ParseResult) (r : round) :
  (forall opts u,
     In (opts, u) (probes (snd (main_iteration urlparse r))) ->
     exists url, u = PyStr url /\ validate_url urlparse url = Returns true)
  /\ (forall opts us,
        In (opts, us) (downloads (snd (main_iteration urlparse r))) ->
        exists url,
          us = [PyStr url] /\ validate_url urlparse url = Returns true).
Proof.
  unfold main_iteration.
  destruct (stdin_input (round_env r) url_prompt) as [first|e];
    [|split; intros ? ? []].
  destruct (get_user_input urlparse (is_playlist first) (round_entries r))
    as [[prefs rest]|] eqn:Hget; [|split; intros ? ? []].
  destruct (collected_attempt _ _ _ _ _ Hget)
    as (url & out & q & ao & af & items & Hurl & _ & Hcall & _).
  rewrite Hcall, download_videos_appends.
  destruct (download_videos (round_env r) (PyStr url) (PyStr out) q ao af
              items []) as [res t'] eqn:Hrun.
  destruct (download_videos_urls _ _ _ _ _ _ _ _ _ Hrun) as [Hp Hd].
  simpl fst. simpl snd.
  assert (forall t0,
            (forall opts u,
               In (opts, u) (probes t0) -> In (opts, u) (probes t'))
            /\ (forall opts us,
                  In (opts, us) (downloads t0)
                  -> In (opts, us) (downloads t')) ->
            (forall opts u,
               In (opts, u) (probes t0) ->
               exists url0, u = PyStr url0
                            /\ validate_url urlparse url0 = Returns true)
            /\ (forall opts us,
                  In (opts, us) (downloads t0) ->
                  exists url0, us = [PyStr url0]
                               /\ validate_url urlparse url0 = Returns true))
    as Hsub.
  { intros t0 [H1 H2]. split.
    - intros opts u Hin. exists url. split; [|exact Hurl].
      exact (Hp opts u (H1 _ _ Hin)).
    - intros opts us Hin. exists url. split; [|exact Hurl].
      exact (Hd opts us (H2 _ _ Hin)). }
  destruct res as [success|e].
  - destruct (stdin_input (round_env r) continue_prompt) as [answer|e];
      [destruct (negb _)|]; apply Hsub;
      simpl; rewrite ?probes_app, ?downloads_app; simpl;
      rewrite ?app_nil_r; auto.
  - apply Hsub. simpl. auto.
Qed.

(** X18: a pass of the loop that cannot fail.  In a world where the
    library and the confirmation prompt raise nothing but errors and the
    directory can be created, a pass whose prompts were completed with
    plain entries, and with no hyphen in an explicit index list, ends
    without an exception: the loop goes on when the last question is
    answered [y] or [Y], and is left otherwise. *)
Theorem main_iteration_survives
    (urlparse : string -> py_result ParseResult) (r : round)
    (first answer : string) (preferences : Preferences)
    (rest : list user_action) :
  library_raises_errors (round_env r) ->
  (forall path, fs_mkdir (round_env r) path = Returns tt) ->
  raises_only_errors (stdin_input (round_env r) confirm_prompt) ->
  stdin_input (round_env r) url_prompt = Returns first ->
  stdin_input (round_env r) continue_prompt = Returns answer ->
  plain_entries (round_entries r) ->
  get_user_input urlparse (is_playlist first) (round_entries r)
  = Some (preferences, rest) ->
  (forall text,
     preferences !! "video_indices" = Some (PyStr text) ->
     PyStr.contains "-" text = false) ->
  fst (main_iteration urlparse r)
  = if affirmative answer then Continues else Stops.
Proof.
  intros Hlib Hmk Hconfirm Hfirst Hanswer _ Hget Hindices.
  unfold main_iteration. rewrite Hfirst, Hget, Hanswer.
  destruct (collected_attempt_returns urlparse (round_env r) _ _ _ _
              [EvInput url_prompt] Hlib Hmk Hconfirm Hget Hindices)
    as [success Hsuccess].
  destruct (main_attempt (round_env r) (is_playlist first) preferences
              [EvInput url_prompt]) as [res t].
  simpl in Hsuccess. subst res. unfold affirmative.
  destruct (String.eqb (PyStr.lower answer) "y"); reflexivity.
Qed.

Lemma main_iteration_survives_witness :
  library_raises_errors (round_env (sample_round "n"))
  /\ plain_entries (round_entries (sample_round "n"))
  /\ get_user_input std_urlparse (is_playlist video_url)
       (round_entries (sample_round "n"))
     = Some (prefs_video_720p, [])
  /\ fst (main_iteration std_urlparse (sample_round "n")) = Stops.
Proof.
  assert (library_raises_errors (round_env (sample_round "n"))) as Hlib.
  { repeat split; intros; exact I. }
  assert (plain_entries (round_entries (sample_round "n"))) as Hplain.
  { repeat (constructor;
            [first [exact I | split; [reflexivity | vm_compute; discriminate]]
            |]).
    constructor. }
  assert (get_user_input std_urlparse (is_playlist video_url)
            (round_entries (sample_round "n"))
          = Some (prefs_video_720p, [])) as Hget by reflexivity.
  assert (forall text,
            prefs_video_720p !! "video_indices" = Some (PyStr text) ->
            PyStr.contains "-" text = false) as Hindices.
  { intros text H. vm_compute in H. discriminate H. }
  split; [exact Hlib|]. split; [exact Hplain|]. split; [exact Hget|].
  exact (main_iteration_survives std_urlparse (sample_round "n") video_url
           "n" prefs_video_720p [] Hlib (fun _ => eq_refl) I eq_refl
           eq_refl Hplain Hget Hindices).
Defined.

(** X19: the URL typed at the first prompt of a pass only classifies.  Two
    passes that differ in that URL alone do and return the same whenever
    [is_playlist] gives the same answer for both: the text itself is never
    validated, stored or downloaded. *)
Theorem main_iteration_first_url_only_classifies
    (urlparse : string -> py_result ParseResult) (env : Env)
    (entries : list user_action) (first first' : string) :
  is_playlist first = is_playlist first' ->
  main_iteration urlparse
    {| round_env := answer_url env first; round_entries := entries |}
  = main_iteration urlparse
      {| round_env := answer_url env first'; round_entries := entries |}.
Proof.
  intros Hsame. unfold main_iteration.
  cbv beta iota delta [round_env round_entries].
  rewrite !answer_url_first, Hsame.
  destruct (get_user_input urlparse (is_playlist first') entries)
    as [[prefs rest]|]; [|reflexivity].
  rewrite !main_attempt_answer_url, !answer_url_other by discriminate.
  reflexivity.
Qed.

Lemma main_iteration_first_url_only_classifies_witness :
  is_playlist video_url = is_playlist "no url at all"
  /\ main_iteration std_urlparse
       {| round_env := answer_url (cooperative_env "y") video_url;
          round_entries := session_video_720p |}
     = main_iteration std_urlparse
         {| round_env := answer_url (cooperative_env "y") "no url at all";
            round_entries := session_video_720p |}.
Proof.
  assert (is_playlist video_url = is_playlist "no url at all")
    as H by reflexivity.
  split; [exact H|].
  exact (main_iteration_first_url_only_classifies std_urlparse
           (cooperative_env "y") session_video_720p video_url
           "no url at all" H).
Defined.

(** X20: [main] does not end in an exception as long as every pass is
    benign, its prompts completed among the rest: either the loop is left
    through the last question, or every pass asked for another and [main]
    is at the first prompt of the next one. *)
Theorem main_never_crashes
    (urlparse : string -> py_result ParseResult) (rounds : list round) :
  Forall (benign_round urlparse) rounds ->
  fst (main urlparse rounds) = Finished
  \/ (fst (main urlparse rounds) = Waiting
      /\ Forall (fun r => fst (main_iteration urlparse r) = Continues)
           rounds).
Proof.
  intros Hrounds. unfold main.
  assert (fst (main_loop urlparse rounds) = Finished
          \/ (fst (main_loop urlparse rounds) = Waiting
              /\ Forall (fun r => fst (main_iteration urlparse r)
                                  = Continues) rounds)) as H.
  { induction Hrounds as [|r rounds Hr _ IH]; simpl;
      [right; split; [reflexivity | constructor]|].
    pose proof (benign_round_outcome urlparse r Hr) as Hout.
    destruct (main_iteration urlparse r) as [res t] eqn:Hpass.
    simpl in Hout. destruct Hout as [-> | ->].
    - destruct (main_loop urlparse rounds) as [res later]. simpl in *.
      destruct IH as [IH | [IH1 IH2]]; [now left|].
      right. split; [exact IH1|]. constructor; [|exact IH2].
      now rewrite Hpass.
    - now left. }
  destruct (main_loop urlparse rounds) as [res t]. exact H.
Qed.

Lemma main_never_crashes_witness :
  Forall (benign_round std_urlparse) [sample_round "y"; sample_round "n"]
  /\ fst (main std_urlparse [sample_round "y"; sample_round "n"])
     = Finished.
Proof.
  assert (forall answer, benign_round std_urlparse (sample_round answer))
    as Hbenign.
  { intros answer.
    split; [repeat split; intros; exact I|].
    split; [intros path; reflexivity|].
    split; [exact I|].
    split; [exists answer; reflexivity|].
    split.
    - repeat (constructor;
              [first [ exact I
                     | split; [reflexivity | vm_compute; discriminate] ]
              |]).
      constructor.
    - exists video_url, prefs_video_720p, [].
      split; [reflexivity|]. split; [reflexivity|].
      intros text Htext. vm_compute in Htext. discriminate Htext. }
  assert (Forall (benign_round std_urlparse)
            [sample_round "y"; sample_round "n"]) as H.
  { constructor; [apply Hbenign|].
    constructor; [apply Hbenign | constructor]. }
  split; [exact H|].
  destruct (main_never_crashes std_urlparse _ H) as [Hfin | [_ Hall]];
    [exact Hfin|].
  exfalso. inversion Hall as [|? ? _ Hrest]. subst.
  inversion Hrest as [|? ? Hn _]. subst.
  vm_compute in Hn. discriminate Hn.
Defined.

(** X21: what [main] prints itself.  The banner comes first and once; the
    farewell is printed exactly when the loop was left through the last
    question, once, and it is then the last thing [main] does. *)
Theorem main_banner_and_goodbye
    (urlparse : string -> py_result ParseResult) (rounds : list round) :
  head (snd (main urlparse rounds)) = Some (Printed banner)
  /\ match fst (main urlparse rounds) with
     | Finished =>
         printed (snd (main urlparse rounds)) = [banner; goodbye]
         /\ last (snd (main urlparse rounds)) = Some (Printed goodbye)
     | _ => printed (snd (main urlparse rounds)) = [banner]
     end.
Proof.
  unfold main.
  pose proof (main_loop_printed urlparse rounds) as Hp.
  pose proof (main_loop_last urlparse rounds) as Hl.
  destruct (main_loop urlparse rounds) as [res t]. simpl in *.
  split; [reflexivity|].
  destruct res; simpl; rewrite Hp; try reflexivity.
  split; [reflexivity|].
  specialize (Hl eq_refl).
  destruct t as [|o t]; [discriminate Hl | exact Hl].
Qed.

(** X22: the loop ends at the first pass that does not ask for another.
    When the passes before [r] all end with the loop going on and [r] does
    not, nothing of the passes after [r] is run: [main] does and returns
    what it would without them, and it ends as [r] does. *)
Theorem main_ends_at_first_pass_that_does_not_continue
    (urlparse : string -> py_result ParseResult)
    (before after : list round) (r : round) :
  Forall (fun x => fst (main_iteration urlparse x) = Continues) before ->
  fst (main_iteration urlparse r) <> Continues ->
  main urlparse (before ++ r :: after)%list
  = main urlparse (before ++ [r])%list
  /\ fst (main urlparse (before ++ r :: after)%list)
     = match fst (main_iteration urlparse r) with
       | Stops => Finished
       | Crashes e => Crashed e
       | _ => Waiting
       end.
Proof.
  intros Hbefore Hr. unfold main.
  assert (main_loop urlparse (before ++ r :: after)%list
          = main_loop urlparse (before ++ [r])%list
          /\ fst (main_loop urlparse (before ++ r :: after)%list)
             = match fst (main_iteration urlparse r) with
               | Stops => Finished
               | Crashes e => Crashed e
               | _ => Waiting
               end) as [Heq Hres].
  { induction Hbefore as [|x before Hx _ IH]; simpl.
    - destruct (main_iteration urlparse r) as [[| |e|] t]; simpl in *;
        try (split; reflexivity). now contradiction Hr.
    - destruct (main_iteration urlparse x) as [[| |e|] t]; simpl in Hx;
        try discriminate Hx.
      destruct IH as [IH1 IH2]. rewrite IH1.
      destruct (main_loop urlparse (before ++ [r])%list) as [res later].
      split; [reflexivity|]. rewrite IH1 in IH2. exact IH2. }
  rewrite Heq. split; [reflexivity|].
  rewrite Heq in Hres.
  destruct (main_loop urlparse (before ++ [r])%list) as [res t]. exact Hres.
Qed.

Lemma main_ends_at_first_pass_that_does_not_continue_witness :
  Forall (fun x => fst (main_iteration std_urlparse x) = Continues)
    [sample_round "y"]
  /\ fst (main_iteration std_urlparse (sample_round "n")) = Stops
  /\ main std_urlparse [sample_round "y"; sample_round "n"; sample_round "y"]
     = main std_urlparse [sample_round "y"; sample_round "n"]
  /\ fst (main std_urlparse
            [sample_round "y"; sample_round "n"; sample_round "y"])
     = Finished.
Proof.
  assert (Forall (fun x => fst (main_iteration std_urlparse x) = Continues)
            [sample_round "y"]) as Hbefore.
  { constructor; [vm_compute; reflexivity | constructor]. }
  assert (fst (main_iteration std_urlparse (sample_round "n")) = Stops)
    as Hstops by (vm_compute; reflexivity).
  assert (fst (main_iteration std_urlparse (sample_round "n")) <> Continues)
    as Hr.
  { rewrite Hstops. discriminate. }
  split; [exact Hbefore|]. split; [exact Hstops|].
  destruct (main_ends_at_first_pass_that_does_not_continue std_urlparse
              [sample_round "y"] [sample_round "y"] (sample_round "n")
              Hbefore Hr) as [Hsame Hend].
  split; [exact Hsame|].
  rewrite Hstops in Hend. exact Hend.
Defined.
